(** * ralphy task service: the in-memory task store and its HTTP handler

    A shallow embedding of [main.go], the program [main_test.go] tests:
    the [TaskStore] (a map from id to [Task] plus the [nextID] counter)
    with its four methods, and the [Server] whose [ServeHTTP] routes a
    request to the store and records the response.  Every method of the
    store runs under the store's mutex from its first statement to its
    last, so a method is one atomic step on the store state; the
    embedding is of that sequential behaviour. *)

From stdpp Require Import gmap strings list fin_maps pretty.
From Stdlib Require Import ZArith Lia.

Local Open Scope Z_scope.
Local Open Scope string_scope.

(** ** A state monad for code that works on a receiver *)

Definition State (S A : Type) : Type := S -> A * S.

Definition sret {S A} (a : A) : State S A := fun s => (a, s).

Definition sbind {S A B} (m : State S A) (k : A -> State S B) : State S B :=
  fun s => let (a, s') := m s in k a s'.

Definition sget {S} : State S S := fun s => (s, s).

Definition sput {S} (s' : S) : State S unit := fun _ => (tt, s').

Definition smodify {S} (f : S -> S) : State S unit := fun s => (tt, f s).

Definition evalState {S A} (m : State S A) (s : S) : A := fst (m s).

Definition execState {S A} (m : State S A) (s : S) : S := snd (m s).

Declare Scope state_scope.
Delimit Scope state_scope with state.
Notation "'do' x <- m ; k" := (sbind m (fun x => k))
  (at level 10, x name, m at level 100, k at level 200) : state_scope.
Notation "m ;; k" := (sbind m (fun _ => k))
  (at level 100, k at level 200, right associativity) : state_scope.

(** ** Go values used by the program *)

(** [time.Time], as the nanoseconds elapsed since the zero instant
    (January 1, year 1, 00:00:00 UTC).  The zero value of the type is that
    instant, and [IsZero] recognises it. *)
Definition Time : Type := Z.

Definition zeroTime : Time := 0.

Definition IsZero (t : Time) : bool := bool_decide (t = zeroTime).

(** Go's [int] on a 64-bit platform: arithmetic wraps around silently in
    two's complement. *)
Definition intSize : Z := 64.

Definition wrapInt (z : Z) : Z :=
  (z + 2 ^ (intSize - 1)) `mod` 2 ^ intSize - 2 ^ (intSize - 1).


(** [fmt.Sprintf("task-%d", n)]: the prefix followed by [n] in decimal,
    with a leading minus sign when [n] is negative. *)
Definition Sprintf_task (n : Z) : string := "task-" +:+ pretty n.

(** A Go slice is either nil or a (possibly empty) run of elements. *)
Inductive slice (A : Type) : Type :=
| nilSlice
| mkSlice (elems : list A).
Arguments nilSlice {A}.
Arguments mkSlice {A} elems.

(** [make([]A, 0, cap)]: an empty slice that is not nil. *)
Definition make {A} (cap : nat) : slice A := mkSlice [].

Definition append {A} (s : slice A) (x : A) : slice A :=
  match s with
  | nilSlice => mkSlice [x]
  | mkSlice l => mkSlice (l ++ [x])
  end.

Definition len {A} (s : slice A) : nat :=
  match s with
  | nilSlice => 0%nat
  | mkSlice l => length l
  end.

Definition elems {A} (s : slice A) : list A :=
  match s with
  | nilSlice => []
  | mkSlice l => l
  end.

Definition isNil {A} (s : slice A) : bool :=
  match s with
  | nilSlice => true
  | mkSlice _ => false
  end.

(** ** Task and TaskStore *)

Record Task : Type := mkTask {
  ID : string;
  Title : string;
  Description : string;
  Completed : bool;
  CreatedAt : Time
}.

(** The zero value of [Task], which a map lookup yields for an absent key. *)
Definition zeroTask : Task :=
  {| ID := ""; Title := ""; Description := ""; Completed := false;
     CreatedAt := zeroTime |}.

Record TaskStore : Type := mkTaskStore {
  tasks : gmap string Task;
  nextID : Z
}.

Definition NewTaskStore : TaskStore :=
  {| tasks := ∅; nextID := 1 |}.

Local Open Scope state_scope.

(** [Create]: the clock reading [now] is what [time.Now()] returns inside
    the call. *)
Definition Create (title description : string) (now : Time)
  : State TaskStore Task :=
  do s <- sget;
  let id := Sprintf_task (nextID s) in
  sput {| tasks := tasks s; nextID := wrapInt (nextID s + 1) |} ;;
  let task := {| ID := id; Title := title; Description := description;
                 Completed := false; CreatedAt := now |} in
  smodify (fun s => {| tasks := <[id := task]> (tasks s);
                       nextID := nextID s |}) ;;
  sret task.

Definition Get (id : string) : State TaskStore (Task * bool) :=
  do s <- sget;
  match tasks s !! id with
  | Some task => sret (task, true)
  | None => sret (zeroTask, false)
  end.

(** [GetAll]: Go ranges over the map in an unspecified order; the
    embedding ranges in the order of [map_to_list], and nothing proved
    below depends on which order that is. *)
Definition GetAll : State TaskStore (slice Task) :=
  do s <- sget;
  sret (foldl (fun acc kv => append acc (snd kv))
              (make (size (tasks s))) (map_to_list (tasks s))).

Definition Delete (id : string) : State TaskStore bool :=
  do s <- sget;
  match tasks s !! id with
  | None => sret false
  | Some _ =>
      sput {| tasks := delete id (tasks s); nextID := nextID s |} ;;
      sret true
  end.

(** ** Sequences of store calls *)

Inductive Op : Type :=
| OpCreate (title description : string) (now : Time)
| OpGet (id : string)
| OpGetAll
| OpDelete (id : string).

Inductive Ret : Type :=
| RetCreate (task : Task)
| RetGet (task : Task) (ok : bool)
| RetGetAll (all : slice Task)
| RetDelete (deleted : bool).

Definition call (o : Op) : State TaskStore Ret :=
  match o with
  | OpCreate title description now =>
      do task <- Create title description now; sret (RetCreate task)
  | OpGet id => do r <- Get id; sret (RetGet (fst r) (snd r))
  | OpGetAll => do all <- GetAll; sret (RetGetAll all)
  | OpDelete id => do deleted <- Delete id; sret (RetDelete deleted)
  end.

Fixpoint run (ops : list Op) : State TaskStore (list Ret) :=
  match ops with
  | [] => sret []
  | o :: ops' =>
      do r <- call o;
      do rs <- run ops';
      sret (r :: rs)
  end.

(** The ids handed out by the [Create] calls of a run, in call order. *)
Definition createdIDs (rs : list Ret) : list string :=
  omap (fun r => match r with RetCreate t => Some (ID t) | _ => None end) rs.

Definition isCreated (r : Ret) : bool :=
  match r with RetCreate _ => true | _ => false end.

Definition isDeleted (r : Ret) : bool :=
  match r with RetDelete true => true | _ => false end.

(** How many [Create] calls a run made, and how many of its [Delete]
    calls reported [true]. *)
Definition creates (rs : list Ret) : nat := length (List.filter isCreated rs).

Definition deletions (rs : list Ret) : nat := length (List.filter isDeleted rs).

(** ** The HTTP handler *)

Definition MethodGet : string := "GET".
Definition MethodPost : string := "POST".
Definition MethodDelete : string := "DELETE".

Definition StatusOK : Z := 200.
Definition StatusCreated : Z := 201.
Definition StatusNoContent : Z := 204.
Definition StatusBadRequest : Z := 400.
Definition StatusNotFound : Z := 404.
Definition StatusMethodNotAllowed : Z := 405.

(** [strings.HasPrefix] and [strings.TrimPrefix]. *)
Fixpoint HasPrefix (s prefix : string) : bool :=
  match prefix, s with
  | EmptyString, _ => true
  | String _ _, EmptyString => false
  | String c prefix', String d s' =>
      if Ascii.eqb c d then HasPrefix s' prefix' else false
  end.

Definition TrimPrefix (s prefix : string) : string :=
  if HasPrefix s prefix
  then String.substring (String.length prefix)
                        (String.length s - String.length prefix) s
  else s.

(** The part of [http.Request] the handler reads: [r.Method],
    [r.URL.Path] and the bytes of [r.Body]. *)
Record Request : Type := mkRequest {
  Method : string;
  Path : string;
  Body : string
}.

(** The anonymous struct [createTask] decodes the body into. *)
Module input.
Record t : Type := mk { Title : string; Description : string }.
End input.

(** The values the handler passes to [json.Encoder.Encode]. *)
Inductive Data : Type :=
| DataTask (task : Task)
| DataTasks (all : slice Task)
| DataMap (m : gmap string string).

(** An [http.ResponseWriter] as a recorder: the header map, the status
    code once it is written, and the values encoded onto the body so far
    (an empty list is an empty body). *)
Record ResponseWriter : Type := mkResponseWriter {
  Header : gmap string string;
  Code : option Z;
  Written : list Data
}.

Definition newResponseWriter : ResponseWriter :=
  {| Header := ∅; Code := None; Written := [] |}.

Definition HeaderSet (key value : string) (w : ResponseWriter) : ResponseWriter :=
  {| Header := <[key := value]> (Header w); Code := Code w;
     Written := Written w |}.

(** Only the first [WriteHeader] of a response takes effect. *)
Definition WriteHeader (status : Z) (w : ResponseWriter) : ResponseWriter :=
  match Code w with
  | Some _ => w
  | None => {| Header := Header w; Code := Some status; Written := Written w |}
  end.

(** Writing to the body sends the header with status 200 if none was
    written before. *)
Definition Encode (data : Data) (w : ResponseWriter) : ResponseWriter :=
  let w' := WriteHeader StatusOK w in
  {| Header := Header w'; Code := Code w'; Written := Written w' ++ [data] |}.

(** The store methods a handler may invoke. *)
Inductive StoreCall : Type :=
| CallCreate (title description : string)
| CallGet (id : string)
| CallGetAll
| CallDelete (id : string).

(** What one request works on: the server's store, the response writer,
    and (ghost state, used only to say which store methods a request
    invoked) the log of store calls. *)
Record Conn : Type := mkConn {
  store : TaskStore;
  w : ResponseWriter;
  invoked : list StoreCall
}.

Definition onStore {A} (c : StoreCall) (m : State TaskStore A) : State Conn A :=
  fun k =>
    let (a, st) := m (store k) in
    (a, {| store := st; w := w k; invoked := invoked k ++ [c] |}).

Definition onWriter (f : ResponseWriter -> ResponseWriter) : State Conn unit :=
  smodify (fun k => {| store := store k; w := f (w k); invoked := invoked k |}).

Definition jsonResponse (status : Z) (data : Data) : State Conn unit :=
  onWriter (HeaderSet "Content-Type" "application/json") ;;
  onWriter (WriteHeader status) ;;
  onWriter (Encode data).

Definition jsonError (status : Z) (message : string) : State Conn unit :=
  jsonResponse status (DataMap {[ "error" := message ]}).

Definition notFound : State Conn unit :=
  jsonError StatusNotFound "not found".

Definition methodNotAllowed : State Conn unit :=
  jsonError StatusMethodNotAllowed "method not allowed".

Definition listTasks (r : Request) : State Conn unit :=
  do all <- onStore CallGetAll GetAll;
  jsonResponse StatusOK (DataTasks all).

Definition getTask (r : Request) (id : string) : State Conn unit :=
  do res <- onStore (CallGet id) (Get id);
  if negb (snd res) then jsonError StatusNotFound "task not found"
  else jsonResponse StatusOK (DataTask (fst res)).

Definition deleteTask (r : Request) (id : string) : State Conn unit :=
  do deleted <- onStore (CallDelete id) (Delete id);
  if negb deleted then jsonError StatusNotFound "task not found"
  else onWriter (WriteHeader StatusNoContent).

(** A request arrives with a response writer nothing was written to. *)
Definition freshConn (s : TaskStore) : Conn :=
  {| store := s; w := newResponseWriter; invoked := [] |}.

Section Handler.

(** [json.NewDecoder(r.Body).Decode(&input)] of the standard library:
    [None] when it returns an error, [Some input] with the decoded
    struct otherwise (a field the body does not give keeps its zero
    value, the empty string). *)
Variable jsonDecode : string -> option input.t.

Definition createTask (now : Time) (r : Request) : State Conn unit :=
  match jsonDecode (Body r) with
  | None => jsonError StatusBadRequest "invalid JSON body"
  | Some input =>
      if bool_decide (input.Title input = "")
      then jsonError StatusBadRequest "title is required"
      else
        do task <- onStore (CallCreate (input.Title input) (input.Description input))
                           (Create (input.Title input) (input.Description input) now);
        jsonResponse StatusCreated (DataTask task)
  end.

Definition ServeHTTP (now : Time) (r : Request) : State Conn unit :=
  let path := Path r in
  if bool_decide (path = "/tasks" \/ path = "/tasks/") then
    if bool_decide (Method r = MethodGet) then listTasks r
    else if bool_decide (Method r = MethodPost) then createTask now r
    else methodNotAllowed
  else if HasPrefix path "/tasks/" then
    let id := TrimPrefix path "/tasks/" in
    if bool_decide (id = "") then notFound
    else if bool_decide (Method r = MethodGet) then getTask r id
    else if bool_decide (Method r = MethodDelete) then deleteTask r id
    else methodNotAllowed
  else notFound.

(** One request served on a fresh response writer against store [s]. *)
Definition serve (now : Time) (r : Request) (s : TaskStore) : Conn :=
  execState (ServeHTTP now r) (freshConn s).

(** The store states the public operations lead to: a new store, then
    any store method called directly or any request served. *)
Inductive reachable : TaskStore -> Prop :=
| reachable_new : reachable NewTaskStore
| reachable_call o s : reachable s -> reachable (execState (call o) s)
| reachable_serve now r s : reachable s -> reachable (store (serve now r s)).

End Handler.

(** A decoder to run the handler on in the examples: it fails on the body
    of the repository's invalid-JSON test, reads a body that starts with
    a title marker as a task with that title, and any other body as an
    object without a title. *)
Definition exampleDecode (body : string) : option input.t :=
  if bool_decide (body = "{invalid json}") then None
  else if HasPrefix body "title=" then
    Some (input.mk (TrimPrefix body "title=") "")
  else Some (input.mk "" body).

(** What a JSON response, and an error response, look like on a fresh
    writer. *)
Definition dataConn (s : TaskStore) (calls : list StoreCall)
    (st : Z) (data : Data) : Conn :=
  {| store := s;
     w := {| Header := <[ "Content-Type" := "application/json" ]> ∅;
             Code := Some st;
             Written := [data] |};
     invoked := calls |}.

Definition errorConn (s : TaskStore) (calls : list StoreCall)
    (st : Z) (message : string) : Conn :=
  dataConn s calls st (DataMap {[ "error" := message ]}).

(** The tasks a response value carries. *)
Definition tasksOf (data : Data) : list Task :=
  match data with
  | DataTask task => [task]
  | DataTasks all => elems all
  | DataMap _ => []
  end.

(** The status code the client sees. *)
Definition status (k : Conn) : Z := default StatusOK (Code (w k)).

Definition body (k : Conn) : list Data := Written (w k).


(** ** Predicates used by the statements *)


(** Every record is stored under its own id. *)
Definition keyed (s : TaskStore) : Prop :=
  forall k t, tasks s !! k = Some t -> ID t = k.

(** No stored task is completed. *)
Definition allOpen (s : TaskStore) : Prop :=
  forall id task, tasks s !! id = Some task -> Completed task = false.

(** The [n]-th id a store whose counter reads [start] hands out. *)
Definition nthID (start : Z) (n : nat) : string :=
  Sprintf_task (wrapInt (start + Z.of_nat n)).

(** After [c] calls of [Create] on a fresh store: the counter has moved
    [c] times and every key of the map is one of the [c] ids issued. *)
Definition issued (c : nat) (s : TaskStore) : Prop :=
  nextID s = wrapInt (1 + Z.of_nat c) /\
  forall id, is_Some (tasks s !! id) -> exists i, (i < c)%nat /\ id = nthID 1 i.

(** The ways a request can end, as [ServeHTTP] and the handlers lay them
    out: an error raised by the routing or by [createTask] before the
    store is touched, the list, a created task, a task found, a task
    missing for [getTask] or [deleteTask], a task deleted. *)
Inductive Outcome (now : Time) (r : Request) (s : TaskStore) : Conn -> Prop :=
| OutcomeRejected st message :
    st = StatusBadRequest \/ st = StatusNotFound \/ st = StatusMethodNotAllowed ->
    Outcome now r s (errorConn s [] st message)
| OutcomeList :
    Method r = MethodGet ->
    Outcome now r s
      (dataConn s [CallGetAll] StatusOK (DataTasks (evalState GetAll s)))
| OutcomeCreated title description :
    Method r = MethodPost ->
    Outcome now r s
      (dataConn (execState (Create title description now) s)
                [CallCreate title description] StatusCreated
                (DataTask (evalState (Create title description now) s)))
| OutcomeFound id task :
    Method r = MethodGet ->
    tasks s !! id = Some task ->
    Outcome now r s (dataConn s [CallGet id] StatusOK (DataTask task))
| OutcomeMissing id call :
    Method r = MethodGet /\ call = CallGet id \/
    Method r = MethodDelete /\ call = CallDelete id ->
    tasks s !! id = None ->
    Outcome now r s (errorConn s [call] StatusNotFound "task not found")
| OutcomeDeleted id :
    Method r = MethodDelete ->
    is_Some (tasks s !! id) ->
    Outcome now r s
      {| store := execState (Delete id) s;
         w := {| Header := ∅; Code := Some StatusNoContent; Written := [] |};
         invoked := [CallDelete id] |}.

(** ** The variant of the service that registers its routes on a ServeMux

    [main.go] holds a second program: its store has no counter and is
    handed complete tasks, and the handler [createTask] takes the id from
    the clock.  [Task] is the same struct in both. *)

Module Mux.

Record TaskStore : Type := mkTaskStore {
  tasks : gmap string Task
}.

Definition NewTaskStore : TaskStore := {| tasks := ∅ |}.

Definition GetAll : State TaskStore (slice Task) :=
  do s <- sget;
  sret (foldl (fun acc kv => append acc (snd kv))
              (make (size (tasks s))) (map_to_list (tasks s))).

Definition Get (id : string) : State TaskStore (Task * bool) :=
  do s <- sget;
  match tasks s !! id with
  | Some task => sret (task, true)
  | None => sret (zeroTask, false)
  end.

Definition Create (task : Task) : State TaskStore unit :=
  smodify (fun s => {| tasks := <[ID task := task]> (tasks s) |}).

Definition Delete (id : string) : State TaskStore bool :=
  do s <- sget;
  match tasks s !! id with
  | None => sret false
  | Some _ => sput {| tasks := delete id (tasks s) |} ;; sret true
  end.

Definition StatusInternalServerError : Z := 500.

(** What is written to the body: a value put there by a JSON encoder, or
    a line of text (the text followed by a newline). *)
Inductive Chunk : Type :=
| Json (data : Data)
| Line (text : string).

(** The response as the client receives it.  Once the status line is
    written the headers are sent, and later changes to the header map
    have no effect on them. *)
Record ResponseWriter : Type := mkResponseWriter {
  Header : gmap string string;
  Code : option Z;
  Written : list Chunk
}.

Definition newResponseWriter : ResponseWriter :=
  {| Header := ∅; Code := None; Written := [] |}.

Definition HeaderSet (key value : string) (w : ResponseWriter) : ResponseWriter :=
  match Code w with
  | Some _ => w
  | None => {| Header := <[key := value]> (Header w); Code := None;
               Written := Written w |}
  end.

Definition WriteHeader (status : Z) (w : ResponseWriter) : ResponseWriter :=
  match Code w with
  | Some _ => w
  | None => {| Header := Header w; Code := Some status; Written := Written w |}
  end.

Definition Write (chunk : Chunk) (w : ResponseWriter) : ResponseWriter :=
  let w' := WriteHeader StatusOK w in
  {| Header := Header w'; Code := Code w'; Written := Written w' ++ [chunk] |}.

(** [http.Error(w, text, code)]: the reply is marked as plain text, the
    status is written and the text is printed as one line. *)
Definition Error (text : string) (code : Z) (w : ResponseWriter) : ResponseWriter :=
  Write (Line text)
    (WriteHeader code
       (HeaderSet "X-Content-Type-Options" "nosniff"
          (HeaderSet "Content-Type" "text/plain; charset=utf-8" w))).

(** The error texts of the handlers are JSON objects written out by
    hand: an opening brace, the quoted key error, a colon, the quoted
    message and a closing brace. *)
Definition quote : Ascii.ascii := Ascii.ascii_of_nat 34.

Definition quoted (s : string) : string :=
  String quote (s +:+ String quote "").

Definition errorText (message : string) : string :=
  "{" +:+ quoted "error" +:+ ":" +:+ quoted message +:+ "}".

(** [s[n:]], which panics when [n] exceeds the length of [s]. *)
Definition sliceFrom (s : string) (n : nat) : option string :=
  if bool_decide (n <= String.length s)%nat
  then Some (String.substring n (String.length s - n) s)
  else None.

Record Conn : Type := mkConn {
  store : TaskStore;
  w : ResponseWriter
}.

Definition freshConn (s : TaskStore) : Conn :=
  {| store := s; w := newResponseWriter |}.

Definition onStore {A} (m : State TaskStore A) : State Conn A :=
  fun k => let (a, st) := m (store k) in (a, {| store := st; w := w k |}).

Definition onWriter (f : ResponseWriter -> ResponseWriter) : State Conn unit :=
  smodify (fun k => {| store := store k; w := f (w k) |}).

Definition status (k : Conn) : Z := default StatusOK (Code (w k)).

(** The two kinds of reply the handlers send once they have marked the
    response as JSON: the status with what was written, and an error
    sent through [Error]. *)
Definition jsonReply (s : TaskStore) (st : Z) (chunks : list Chunk) : Conn :=
  {| store := s;
     w := {| Header := <[ "Content-Type" := "application/json" ]> ∅;
             Code := Some st; Written := chunks |} |}.

Definition errorReply (s : TaskStore) (st : Z) (message : string) : Conn :=
  {| store := s;
     w := {| Header := <[ "X-Content-Type-Options" := "nosniff" ]>
                         (<[ "Content-Type" := "text/plain; charset=utf-8" ]>
                            (<[ "Content-Type" := "application/json" ]> ∅));
             Code := Some st; Written := [Line (errorText message)] |} |}.

(** A reply as [Error] leaves it on a writer whose status was not yet
    written. *)
Definition isErrorReply (k : Conn) : Prop :=
  Header (w k) !! "Content-Type" = Some "text/plain; charset=utf-8" /\
  Header (w k) !! "X-Content-Type-Options" = Some "nosniff" /\
  exists message, Written (w k) = [Line (errorText message)].

Section Handler.

(** [json.NewDecoder(r.Body).Decode(&task)], decoding into a whole
    [Task]: [None] when it returns an error, else the decoded struct. *)
Variable jsonDecode : string -> option Task.

(** Whether [json.NewEncoder(w).Encode(data)] succeeds; when it fails
    it has written nothing. *)
Variable jsonEncodes : Data -> bool.

(** [Encode] returns whether the error was nil. *)
Definition Encode (data : Data) : State Conn bool :=
  if jsonEncodes data
  then onWriter (Write (Json data)) ;; sret true
  else sret false.

Definition listTasks (r : Request) : State Conn unit :=
  do all <- onStore GetAll;
  do ok <- Encode (DataTasks all);
  if ok then sret tt
  else onWriter (Error (errorText "internal server error")
                       StatusInternalServerError).

(** [nano] is what [time.Now().UnixNano()] returns and [now] the later
    reading [time.Now()]. *)
Definition createTask (nano : Z) (now : Time) (r : Request) : State Conn unit :=
  match jsonDecode (Body r) with
  | None => onWriter (Error (errorText "invalid JSON") StatusBadRequest)
  | Some task =>
      if bool_decide (Title task = "")
      then onWriter (Error (errorText "title is required") StatusBadRequest)
      else
        let task := {| ID := pretty nano; Title := Title task;
                       Description := Description task;
                       Completed := Completed task; CreatedAt := now |} in
        onStore (Create task) ;;
        onWriter (WriteHeader StatusCreated) ;;
        do ok <- Encode (DataTask task);
        if ok then sret tt
        else onWriter (Error (errorText "internal server error")
                             StatusInternalServerError)
  end.

Definition handleTasks (nano : Z) (now : Time) (r : Request) : State Conn unit :=
  onWriter (HeaderSet "Content-Type" "application/json") ;;
  if bool_decide (Method r = MethodGet) then listTasks r
  else if bool_decide (Method r = MethodPost) then createTask nano now r
  else onWriter (Error (errorText "method not allowed") StatusMethodNotAllowed).

Definition getTask (r : Request) (id : string) : State Conn unit :=
  do res <- onStore (Get id);
  if negb (snd res)
  then onWriter (Error (errorText "task not found") StatusNotFound)
  else
    do ok <- Encode (DataTask (fst res));
    if ok then sret tt
    else onWriter (Error (errorText "internal server error")
                         StatusInternalServerError).

Definition deleteTask (r : Request) (id : string) : State Conn unit :=
  do deleted <- onStore (Delete id);
  if negb deleted
  then onWriter (Error (errorText "task not found") StatusNotFound)
  else onWriter (WriteHeader StatusNoContent).

(** [handleTaskByID] slices the path without looking at it, so it
    panics ([None]) on a path shorter than the prefix. *)
Definition handleTaskByID (r : Request) (k : Conn) : option Conn :=
  let k := execState (onWriter (HeaderSet "Content-Type" "application/json")) k in
  match sliceFrom (Path r) (String.length "/tasks/") with
  | None => None
  | Some id =>
      Some (execState
              (if bool_decide (id = "")
               then onWriter (Error (errorText "task ID required") StatusBadRequest)
               else if bool_decide (Method r = MethodGet) then getTask r id
               else if bool_decide (Method r = MethodDelete) then deleteTask r id
               else onWriter (Error (errorText "method not allowed")
                                    StatusMethodNotAllowed))
              k)
  end.

End Handler.

(** A decoder to run these handlers on in the examples: it fails on the
    body of the repository's invalid-JSON test and reads any other body
    as a task that gives that title, an id of the client's choosing and
    the completed flag set. *)
Definition exampleDecode (body : string) : option Task :=
  if bool_decide (body = "{invalid json}") then None
  else Some {| ID := "chosen-by-client"; Title := body; Description := "";
               Completed := true; CreatedAt := zeroTime |}.

End Mux.

(** * Properties *)

(** ** The state monad and the equations of the store methods *)

Ltac unfold_state :=
  unfold evalState, execState, sbind, sget, sput, smodify, sret in *.

(** Linear arithmetic with the width of [int] written out. *)
Ltac int_lia := unfold intSize in *; lia.

Lemma Create_eq title description now s :
  Create title description now s =
  let task := {| ID := Sprintf_task (nextID s); Title := title;
                 Description := description; Completed := false;
                 CreatedAt := now |} in
  (task, {| tasks := <[Sprintf_task (nextID s) := task]> (tasks s);
            nextID := wrapInt (nextID s + 1) |}).
Proof. reflexivity. Qed.

Lemma Get_eq id s :
  Get id s = (match tasks s !! id with
              | Some task => (task, true)
              | None => (zeroTask, false)
              end, s).
Proof. unfold Get; unfold_state. by destruct (tasks s !! id). Qed.

Lemma Delete_eq id s :
  Delete id s = match tasks s !! id with
                | None => (false, s)
                | Some _ => (true, {| tasks := delete id (tasks s);
                                      nextID := nextID s |})
                end.
Proof. unfold Delete; unfold_state. by destruct (tasks s !! id). Qed.

Lemma GetAll_eq s :
  GetAll s = (mkSlice (snd <$> map_to_list (tasks s)), s).
Proof.
  unfold GetAll, make; unfold_state. f_equal.
  generalize (map_to_list (tasks s)). intros l.
  rewrite <- (app_nil_l (snd <$> l)). generalize (@nil Task).
  induction l as [|kv l IH]; intros acc; simpl.
  - by rewrite app_nil_r.
  - rewrite IH. by rewrite <- app_assoc.
Qed.

Lemma len_GetAll s : len (evalState GetAll s) = size (tasks s).
Proof.
  unfold evalState. rewrite GetAll_eq. simpl.
  rewrite length_fmap. by rewrite length_map_to_list.
Qed.

Lemma Sprintf_task_inj n m : Sprintf_task n = Sprintf_task m -> n = m.
Proof.
  unfold Sprintf_task. intros H. simpl in H.
  apply (inj pretty). by simplify_eq.
Qed.

Lemma Sprintf_task_nonempty n : Sprintf_task n <> "".
Proof. unfold Sprintf_task. simpl. discriminate. Qed.

(** ** C1: a created task is found again, unchanged *)

(** C1. For every non-empty title and every description, [Create]
    followed by [Get] on the returned id finds a task with that title and
    description, not completed, with a non-empty id and (the clock not
    reading the zero instant) a non-zero creation time. *)
Theorem Create_then_Get title description now s :
  title <> "" ->
  IsZero now = false ->
  let (task, s1) := Create title description now s in
  let (res, s2) := Get (ID task) s1 in
  snd res = true /\
  fst res = task /\
  Title (fst res) = title /\
  Description (fst res) = description /\
  Completed (fst res) = false /\
  ID (fst res) <> "" /\
  IsZero (CreatedAt (fst res)) = false.
Proof.
  intros _ Hnow. rewrite Create_eq. cbv beta iota zeta.
  rewrite Get_eq. cbn [ID tasks]. rewrite lookup_insert_eq. cbn.
  repeat split; auto using Sprintf_task_nonempty.
Qed.

Lemma Create_then_Get_witness :
  let (task, s1) := Create "Test Task" "Description" 1 NewTaskStore in
  let (res, s2) := Get (ID task) s1 in
  snd res = true /\
  fst res = task /\
  Title (fst res) = "Test Task" /\
  Description (fst res) = "Description" /\
  Completed (fst res) = false /\
  ID (fst res) <> "" /\
  IsZero (CreatedAt (fst res)) = false.
Proof.
  apply (Create_then_Get "Test Task" "Description" 1 NewTaskStore);
    [discriminate | reflexivity].
Defined.

(** ** C4: Delete *)

(** C4. [Delete id] reports [true] exactly when the id is present and
    removes that record and nothing else (the counter included); after it
    [Get id] reports not found and a second [Delete id] reports [false];
    on an absent id it reports [false] and leaves the store as it was. *)
Theorem Delete_spec id s :
  let (deleted, s') := Delete id s in
  (deleted = true <-> is_Some (tasks s !! id)) /\
  tasks s' = delete id (tasks s) /\
  nextID s' = nextID s /\
  (forall id', id' <> id -> tasks s' !! id' = tasks s !! id') /\
  snd (evalState (Get id) s') = false /\
  evalState (Delete id) s' = false /\
  (deleted = false -> s' = s).
Proof.
  rewrite Delete_eq. unfold evalState.
  destruct (tasks s !! id) as [t|] eqn:Hid.
  - rewrite Get_eq, Delete_eq. cbn [tasks nextID].
    rewrite lookup_delete_eq. cbn.
    repeat split; eauto; try discriminate.
    intros id' Hne. by rewrite lookup_delete_ne.
  - rewrite Get_eq, Delete_eq, Hid. cbn.
    repeat split; eauto; try discriminate.
    + by intros [? ?].
    + by rewrite delete_id.
Qed.

(** ** C9: Get and GetAll only read *)

(** C9. [Get] and [GetAll] leave the store, map and counter, exactly as
    they found it. *)
Theorem Get_GetAll_read_only id s :
  execState (Get id) s = s /\ execState GetAll s = s.
Proof.
  unfold execState. by rewrite Get_eq, GetAll_eq.
Qed.

(** ** The id counter *)


Lemma wrapInt_add_l a b : wrapInt (wrapInt a + b) = wrapInt (a + b).
Proof.
  unfold wrapInt, intSize. f_equal.
  replace ((a + 2 ^ (64 - 1)) `mod` 2 ^ 64 - 2 ^ (64 - 1) + b + 2 ^ (64 - 1))
    with ((a + 2 ^ (64 - 1)) `mod` 2 ^ 64 + b) by lia.
  rewrite Zplus_mod_idemp_l. f_equal. lia.
Qed.

(** The counter takes [2 ^ 64] values before it repeats one. *)
Lemma wrapInt_window a i j :
  0 <= i -> i < j -> j < 2 ^ intSize ->
  wrapInt (a + i) <> wrapInt (a + j).
Proof.
  unfold wrapInt, intSize. intros Hi Hij Hj Heq.
  assert (H : (a + i + 2 ^ (64 - 1)) `mod` 2 ^ 64
              = (a + j + 2 ^ (64 - 1)) `mod` 2 ^ 64) by lia.
  pose proof (Z.div_mod (a + i + 2 ^ (64 - 1)) (2 ^ 64)) as H1.
  pose proof (Z.div_mod (a + j + 2 ^ (64 - 1)) (2 ^ 64)) as H2.
  rewrite H in H1.
  set (q1 := (a + i + 2 ^ (64 - 1)) `div` 2 ^ 64) in *.
  set (q2 := (a + j + 2 ^ (64 - 1)) `div` 2 ^ 64) in *.
  lia.
Qed.

Lemma nthID_inj start i j :
  (Z.of_nat i < 2 ^ intSize) -> (Z.of_nat j < 2 ^ intSize) ->
  nthID start i = nthID start j -> i = j.
Proof.
  unfold nthID. intros Hi Hj Heq. apply Sprintf_task_inj in Heq.
  destruct (decide (i = j)) as [|Hne]; [done|exfalso].
  destruct (decide (i < j)%nat).
  - eapply (wrapInt_window start (Z.of_nat i) (Z.of_nat j)); eauto; lia.
  - eapply (wrapInt_window start (Z.of_nat j) (Z.of_nat i)); eauto; lia.
Qed.

(** ** Runs of store calls *)

Lemma call_eq o s :
  call o s =
  match o with
  | OpCreate title description now =>
      (RetCreate (evalState (Create title description now) s),
       execState (Create title description now) s)
  | OpGet id => (RetGet (fst (evalState (Get id) s)) (snd (evalState (Get id) s)), s)
  | OpGetAll => (RetGetAll (evalState GetAll s), s)
  | OpDelete id => (RetDelete (evalState (Delete id) s), execState (Delete id) s)
  end.
Proof.
  destruct o; unfold call, evalState, execState, sbind, sret.
  - reflexivity.
  - by rewrite Get_eq.
  - by rewrite GetAll_eq.
  - by destruct (Delete id s).
Qed.

Lemma run_cons o ops s :
  run (o :: ops) s =
  (fst (call o s) :: fst (run ops (snd (call o s))),
   snd (run ops (snd (call o s)))).
Proof.
  cbn [run]. unfold sbind, sret.
  destruct (call o s) as [r s1]. cbn [fst snd].
  by destruct (run ops s1).
Qed.

Lemma run_app ops1 ops2 s :
  run (ops1 ++ ops2) s =
  ((fst (run ops1 s) ++ fst (run ops2 (snd (run ops1 s))))%list,
   snd (run ops2 (snd (run ops1 s)))).
Proof.
  revert s. induction ops1 as [|o ops1 IH]; intros s.
  - cbn. by destruct (run ops2 s).
  - rewrite <- app_comm_cons, !run_cons, IH. reflexivity.
Qed.

Lemma nthID_succ a i : nthID (a + 1) i = nthID a (S i).
Proof. unfold nthID. do 2 f_equal. lia. Qed.

(** Only [Create] moves the counter, one step per call, and the ids a
    run hands out are the successive readings of the counter. *)
Lemma run_counter ops : forall a s,
  nextID s = wrapInt a ->
  nextID (snd (run ops s)) = wrapInt (a + Z.of_nat (creates (fst (run ops s)))) /\
  createdIDs (fst (run ops s)) = nthID a <$> seq 0 (creates (fst (run ops s))).
Proof.
  induction ops as [|o ops IH]; intros a s Ha.
  - cbn. by rewrite Z.add_0_r.
  - rewrite run_cons, call_eq. cbn [fst snd].
    destruct o as [title description now|id| |id]; cbn [fst snd].
    + unfold evalState, execState. rewrite Create_eq. cbn [fst snd].
      destruct (IH (a + 1) {|
        tasks := <[Sprintf_task (nextID s) :=
                   {| ID := Sprintf_task (nextID s); Title := title;
                      Description := description; Completed := false;
                      CreatedAt := now |}]> (tasks s);
        nextID := wrapInt (nextID s + 1) |}) as [IH1 IH2].
      { cbn. by rewrite Ha, wrapInt_add_l. }
      split.
      * rewrite IH1. unfold creates. cbn. f_equal. lia.
      * unfold createdIDs, creates in *. cbn. rewrite IH2.
        rewrite <- fmap_S_seq, <- list_fmap_compose.
        f_equal.
        { unfold nthID. by rewrite Ha, Z.add_0_r. }
        apply list_fmap_ext. intros ? i ?. cbn. apply nthID_succ.
    + apply (IH a s Ha).
    + apply (IH a s Ha).
    + unfold execState. rewrite Delete_eq.
      destruct (tasks s !! id); cbn [snd]; by apply (IH a).
Qed.



Lemma creates_cons r rs :
  creates (r :: rs) = ((if isCreated r then 1 else 0) + creates rs)%nat.
Proof. unfold creates. cbn. by destruct (isCreated r). Qed.

Lemma deletions_cons r rs :
  deletions (r :: rs) = ((if isDeleted r then 1 else 0) + deletions rs)%nat.
Proof. unfold deletions. cbn. by destruct (isDeleted r). Qed.

Lemma issued_fresh : issued 0 NewTaskStore.
Proof.
  split; [reflexivity|]. intros id [t Ht]. cbn in Ht.
  by rewrite lookup_empty in Ht.
Qed.

Lemma issued_Create c s title description now :
  issued c s -> Z.of_nat c < 2 ^ intSize ->
  issued (S c) (execState (Create title description now) s) /\
  tasks s !! Sprintf_task (nextID s) = None.
Proof.
  intros [Hn Hkeys] Hc. unfold execState. rewrite Create_eq. cbn [snd].
  assert (Hid : Sprintf_task (nextID s) = nthID 1 c) by (by rewrite Hn).
  split; [split|].
  - cbn. rewrite Hn, wrapInt_add_l. f_equal. lia.
  - intros id. cbn [tasks]. rewrite Hid.
    destruct (decide (nthID 1 c = id)) as [<-|Hne].
    + exists c. split; [lia|done].
    + rewrite lookup_insert_ne by done. intros Hsome.
      destruct (Hkeys id Hsome) as (i & Hi & ->). exists i. split; [lia|done].
  - destruct (tasks s !! Sprintf_task (nextID s)) as [t|] eqn:Ht; [|done].
    destruct (Hkeys _ (mk_is_Some _ _ Ht)) as (i & Hi & Heq).
    rewrite Hid in Heq. apply nthID_inj in Heq; lia.
Qed.

Lemma issued_Delete c s id : issued c s -> issued c (execState (Delete id) s).
Proof.
  intros [Hn Hkeys]. unfold execState. rewrite Delete_eq.
  destruct (tasks s !! id) as [t|] eqn:Ht; [|done].
  split; [done|]. intros id'. cbn.
  destruct (decide (id = id')) as [<-|Hne].
  - rewrite lookup_delete_eq. by intros [? ?].
  - rewrite lookup_delete_ne by done. apply Hkeys.
Qed.

(** While fewer than [2 ^ 64] ids have been issued every [Create] adds a
    record and every [Delete] that reports [true] removes one. *)
Lemma run_size ops : forall c s,
  issued c s ->
  Z.of_nat (c + creates (fst (run ops s))) <= 2 ^ intSize ->
  issued (c + creates (fst (run ops s))) (snd (run ops s)) /\
  (size (tasks (snd (run ops s))) + deletions (fst (run ops s))
   = size (tasks s) + creates (fst (run ops s)))%nat.
Proof.
  induction ops as [|o ops IH]; intros c s Hs Hc.
  - cbn. by rewrite Nat.add_0_r.
  - rewrite run_cons, call_eq in *. cbn [fst snd] in *.
    destruct o as [title description now|id| |id]; cbn [fst snd] in *.
    + destruct (issued_Create c s title description now Hs) as [Hs1 Hfresh].
      { revert Hc. rewrite creates_cons. cbn [isCreated]. lia. }
      assert (Hsz : size (tasks (execState (Create title description now) s))
                    = S (size (tasks s))).
      { unfold execState. rewrite Create_eq. cbn [snd tasks].
        by rewrite map_size_insert_None. }
      revert Hs1 Hsz Hc.
      generalize (execState (Create title description now) s).
      generalize (evalState (Create title description now) s).
      intros task s1 Hs1 Hsz.
      rewrite creates_cons, deletions_cons. cbn [isCreated isDeleted].
      rewrite Nat.add_0_l. intros Hc.
      destruct (IH (S c) s1 Hs1) as [IH1 IH2]; [lia|].
      replace (c + (1 + creates (run ops s1).1))%nat
        with (S c + creates (run ops s1).1)%nat by lia.
      split; [done|lia].
    + rewrite creates_cons, deletions_cons in *. apply (IH c s Hs Hc).
    + rewrite creates_cons, deletions_cons in *. apply (IH c s Hs Hc).
    + pose proof (issued_Delete c s id Hs) as Hs1.
      assert (Hsz : (size (tasks (execState (Delete id) s))
                     + (if evalState (Delete id) s then 1 else 0)
                     = size (tasks s))%nat).
      { unfold evalState, execState. rewrite Delete_eq.
        destruct (tasks s !! id) as [t|] eqn:Ht; cbn [fst snd tasks]; [|lia].
        rewrite map_size_delete_Some by done.
        assert (size (tasks s) <> 0%nat); [|lia].
        intros H0. apply map_size_empty_inv in H0.
        by rewrite H0, lookup_empty in Ht. }
      revert Hs1 Hsz Hc.
      generalize (execState (Delete id) s).
      generalize (evalState (Delete id) s).
      intros deleted s1 Hs1 Hsz.
      rewrite creates_cons, deletions_cons. cbn [isCreated isDeleted].
      rewrite Nat.add_0_l. intros Hc.
      destruct (IH c s1 Hs1 Hc) as [IH1 IH2].
      split; [done|]. destruct deleted; lia.
Qed.


Lemma keyed_call o s : keyed s -> keyed (snd (call o s)).
Proof.
  intros Hk. rewrite call_eq.
  destruct o as [title description now|id| |id]; cbn [snd]; try done.
  - unfold execState. rewrite Create_eq. cbn [snd]. intros k t. cbn [tasks].
    destruct (decide (Sprintf_task (nextID s) = k)) as [<-|Hne].
    + rewrite lookup_insert_eq. by intros [= <-].
    + rewrite lookup_insert_ne by done. apply Hk.
  - unfold execState. rewrite Delete_eq.
    destruct (tasks s !! id); [|done].
    intros k' t'. cbn. intros Hl. apply lookup_delete_Some in Hl as [_ Hl].
    by apply Hk.
Qed.

Lemma keyed_run ops : forall s, keyed s -> keyed (snd (run ops s)).
Proof.
  induction ops as [|o ops IH]; intros s Hk; [done|].
  rewrite run_cons. cbn [snd]. by apply IH, keyed_call.
Qed.

Lemma keyed_fresh : keyed NewTaskStore.
Proof. intros k t H. cbn in H. by rewrite lookup_empty in H. Qed.




Lemma nextID_fresh : nextID NewTaskStore = wrapInt 1.
Proof. reflexivity. Qed.





(** ** C2: the ids of a run of Create calls *)




(** ** C10: ids follow the counter *)




(** ** C7: the length of GetAll *)




(** ** Strings *)

Lemma substring_all s : String.substring 0 (String.length s) s = s.
Proof. induction s as [|c s IH]; cbn; [done|by rewrite IH]. Qed.

Lemma HasPrefix_app prefix rest : HasPrefix (prefix +:+ rest) prefix = true.
Proof.
  induction prefix as [|c prefix IH]; [by destruct rest|].
  change (String c prefix +:+ rest) with (String c (prefix +:+ rest)).
  cbn [HasPrefix]. by rewrite Ascii.eqb_refl.
Qed.

Lemma HasPrefix_inv prefix : forall s,
  HasPrefix s prefix = true -> exists rest, s = prefix +:+ rest.
Proof.
  induction prefix as [|c prefix IH]; intros s H.
  - by exists s.
  - destruct s as [|d s]; cbn [HasPrefix] in H; [done|].
    destruct (Ascii.eqb c d) eqn:Hcd; [|done].
    apply Ascii.eqb_eq in Hcd as ->.
    destruct (IH s H) as [rest ->]. by exists rest.
Qed.

Lemma TrimPrefix_app prefix rest : TrimPrefix (prefix +:+ rest) prefix = rest.
Proof.
  unfold TrimPrefix. rewrite HasPrefix_app.
  induction prefix as [|c prefix IH]; cbn.
  - rewrite Nat.sub_0_r. apply substring_all.
  - exact IH.
Qed.

(** ** The handler *)

Lemma jsonResponse_eq st data k :
  jsonResponse st data k =
  (tt, {| store := store k;
          w := Encode data (WriteHeader st
                 (HeaderSet "Content-Type" "application/json" (w k)));
          invoked := invoked k |}).
Proof. reflexivity. Qed.

Lemma jsonError_eq st message k :
  jsonError st message k =
  (tt, {| store := store k;
          w := Encode (DataMap {[ "error" := message ]}) (WriteHeader st
                 (HeaderSet "Content-Type" "application/json" (w k)));
          invoked := invoked k |}).
Proof. reflexivity. Qed.


Lemma notFound_eq s :
  execState notFound (freshConn s) = errorConn s [] StatusNotFound "not found".
Proof. reflexivity. Qed.

Lemma methodNotAllowed_eq s :
  execState methodNotAllowed (freshConn s)
  = errorConn s [] StatusMethodNotAllowed "method not allowed".
Proof. reflexivity. Qed.

Lemma listTasks_eq r s :
  execState (listTasks r) (freshConn s)
  = dataConn s [CallGetAll] StatusOK (DataTasks (evalState GetAll s)).
Proof.
  unfold listTasks, onStore, execState, evalState, sbind. cbn [store freshConn].
  by rewrite GetAll_eq.
Qed.

Lemma getTask_eq r id s :
  execState (getTask r id) (freshConn s)
  = match tasks s !! id with
    | Some task => dataConn s [CallGet id] StatusOK (DataTask task)
    | None => errorConn s [CallGet id] StatusNotFound "task not found"
    end.
Proof.
  unfold getTask, onStore, execState, sbind. cbn [store freshConn].
  rewrite Get_eq. by destruct (tasks s !! id).
Qed.

Lemma deleteTask_eq r id s :
  execState (deleteTask r id) (freshConn s)
  = match tasks s !! id with
    | Some _ =>
        {| store := execState (Delete id) s;
           w := {| Header := ∅; Code := Some StatusNoContent; Written := [] |};
           invoked := [CallDelete id] |}
    | None => errorConn s [CallDelete id] StatusNotFound "task not found"
    end.
Proof.
  unfold deleteTask, onStore, execState, sbind. cbn [store freshConn].
  rewrite Delete_eq. by destruct (tasks s !! id).
Qed.

Section HandlerProperties.

Variable jsonDecode : string -> option input.t.

Lemma createTask_eq now r s :
  execState (createTask jsonDecode now r) (freshConn s)
  = match jsonDecode (Body r) with
    | None => errorConn s [] StatusBadRequest "invalid JSON body"
    | Some input =>
        if bool_decide (input.Title input = "")
        then errorConn s [] StatusBadRequest "title is required"
        else
          dataConn
            (execState (Create (input.Title input) (input.Description input) now) s)
            [CallCreate (input.Title input) (input.Description input)]
            StatusCreated
            (DataTask (evalState (Create (input.Title input)
                                         (input.Description input) now) s))
    end.
Proof.
  unfold createTask. destruct (jsonDecode (Body r)) as [input|]; [|done].
  by case_bool_decide.
Qed.

(** The three routes of [ServeHTTP]. *)
Lemma serve_collection now r s :
  Path r = "/tasks" \/ Path r = "/tasks/" ->
  serve jsonDecode now r s =
  if bool_decide (Method r = MethodGet)
  then execState (listTasks r) (freshConn s)
  else if bool_decide (Method r = MethodPost)
       then execState (createTask jsonDecode now r) (freshConn s)
       else execState methodNotAllowed (freshConn s).
Proof.
  intros Hpath. unfold serve, ServeHTTP. cbv zeta.
  rewrite bool_decide_eq_true_2 by done.
  by repeat case_bool_decide.
Qed.

Lemma serve_item now r s id :
  Path r = "/tasks/" +:+ id -> id <> "" ->
  serve jsonDecode now r s =
  if bool_decide (Method r = MethodGet)
  then execState (getTask r id) (freshConn s)
  else if bool_decide (Method r = MethodDelete)
       then execState (deleteTask r id) (freshConn s)
       else execState methodNotAllowed (freshConn s).
Proof.
  intros Hpath Hid. unfold serve, ServeHTTP. cbv zeta. rewrite Hpath.
  rewrite bool_decide_eq_false_2.
  2:{ intros [H|H]; [by simplify_eq|].
      change "/tasks/" with ("/tasks/" +:+ "") in H at 2.
      by apply (inj (String.app "/tasks/")) in H. }
  rewrite HasPrefix_app, TrimPrefix_app.
  rewrite bool_decide_eq_false_2 by done.
  by repeat case_bool_decide.
Qed.

Lemma serve_other now r s :
  Path r <> "/tasks" -> (forall rest, Path r <> "/tasks/" +:+ rest) ->
  serve jsonDecode now r s = execState notFound (freshConn s).
Proof.
  intros Hpath Hpre. unfold serve, ServeHTTP. cbv zeta.
  rewrite bool_decide_eq_false_2.
  2:{ intros [H|H]; [done|]. by apply (Hpre ""). }
  destruct (HasPrefix (Path r) "/tasks/") eqn:Hhas; [|done].
  apply HasPrefix_inv in Hhas as [rest Hrest]. by destruct (Hpre rest).
Qed.

Lemma route_cases (r : Request) :
  (Path r = "/tasks" \/ Path r = "/tasks/") \/
  (exists id, Path r = "/tasks/" +:+ id /\ id <> "") \/
  (Path r <> "/tasks" /\ forall rest, Path r <> "/tasks/" +:+ rest).
Proof.
  destruct (decide (Path r = "/tasks")) as [|Hne]; [by left; left|].
  destruct (HasPrefix (Path r) "/tasks/") eqn:Hhas.
  - apply HasPrefix_inv in Hhas as [rest Hrest].
    destruct (decide (rest = "")) as [->|Hrest'].
    + by left; right.
    + right; left. by exists rest.
  - right; right. split; [done|]. intros rest Hrest.
    by rewrite Hrest, HasPrefix_app in Hhas.
Qed.

(** ** C3: a create request that is rejected *)


(** ** C5: status codes *)

(** C5. A method other than GET and POST on /tasks, or other than GET
    and DELETE on /tasks/{id}, is answered 405; a path that is neither
    /tasks nor starts with /tasks/ is answered 404; GET /tasks is
    answered 200, a POST on /tasks with a decodable body and a title
    201, a DELETE of a stored id 204 with an empty body, and a GET or
    DELETE of an id not in the store 404. *)
Theorem ServeHTTP_status now r s :
  let k := serve jsonDecode now r s in
  (Path r = "/tasks" -> Method r <> MethodGet -> Method r <> MethodPost ->
   status k = 405) /\
  (forall id, Path r = "/tasks/" +:+ id -> id <> "" ->
              Method r <> MethodGet -> Method r <> MethodDelete ->
              status k = 405) /\
  (Path r <> "/tasks" -> (forall rest, Path r <> "/tasks/" +:+ rest) ->
   status k = 404) /\
  (Path r = "/tasks" -> Method r = MethodGet -> status k = 200) /\
  (forall input, Path r = "/tasks" -> Method r = MethodPost ->
                 jsonDecode (Body r) = Some input -> input.Title input <> "" ->
                 status k = 201) /\
  (forall id, Path r = "/tasks/" +:+ id -> id <> "" ->
              Method r = MethodDelete -> is_Some (tasks s !! id) ->
              status k = 204 /\ body k = []) /\
  (forall id, Path r = "/tasks/" +:+ id -> id <> "" ->
              Method r = MethodGet \/ Method r = MethodDelete ->
              tasks s !! id = None ->
              status k = 404).
Proof.
  intros k. subst k. split_and!.
  - intros Hp Hg Hpo. rewrite serve_collection by auto.
    by rewrite !bool_decide_eq_false_2 by done.
  - intros id Hp Hid Hg Hd. rewrite (serve_item _ _ _ id) by done.
    by rewrite !bool_decide_eq_false_2 by done.
  - intros Hp Hrest. by rewrite serve_other.
  - intros Hp Hg. rewrite serve_collection by auto.
    rewrite bool_decide_eq_true_2 by done. by rewrite listTasks_eq.
  - intros input Hp Hpo Hdec Htitle. rewrite serve_collection by auto.
    rewrite Hpo, bool_decide_eq_false_2 by done.
    rewrite bool_decide_eq_true_2 by done.
    rewrite createTask_eq, Hdec. by rewrite bool_decide_eq_false_2.
  - intros id Hp Hid Hm [t Ht]. rewrite (serve_item _ _ _ id) by done.
    rewrite Hm, bool_decide_eq_false_2 by done.
    rewrite bool_decide_eq_true_2 by done.
    by rewrite deleteTask_eq, Ht.
  - intros id Hp Hid Hm Hnone. rewrite (serve_item _ _ _ id) by done.
    rewrite getTask_eq, deleteTask_eq, Hnone.
    destruct Hm as [-> | ->].
    + by rewrite bool_decide_eq_true_2.
    + rewrite bool_decide_eq_false_2 by done.
      by rewrite bool_decide_eq_true_2.
Qed.

(** ** C6: the path /tasks/ *)

(** C6 (amended). A request whose path is exactly /tasks/ is answered
    as the same request on /tasks, by a function of the request and the
    store: a GET with status 200 and the list of all tasks, a DELETE
    with status 405 and the error method not allowed; either way the
    store is unchanged and the status is neither 404 nor 400. *)
Theorem ServeHTTP_trailing_slash now r s :
  Path r = "/tasks/" ->
  let k := serve jsonDecode now r s in
  k = serve jsonDecode now
            {| Method := Method r; Path := "/tasks"; Body := Body r |} s /\
  (Method r = MethodGet ->
   status k = 200 /\ body k = [DataTasks (evalState GetAll s)] /\
   store k = s) /\
  (Method r = MethodDelete ->
   status k = 405 /\
   body k = [DataMap {[ "error" := "method not allowed" ]}] /\
   store k = s /\ invoked k = []).
Proof.
  intros Hp k. subst k. rewrite !serve_collection by auto. cbn [Method].
  split; [|split].
  - by repeat case_bool_decide.
  - intros ->. rewrite bool_decide_eq_true_2 by done.
    by rewrite listTasks_eq.
  - intros ->. by rewrite !bool_decide_eq_false_2 by done.
Qed.

(** ** C8: no task is ever completed *)

Lemma allOpen_call o s : allOpen s -> allOpen (execState (call o) s).
Proof.
  intros Hs. unfold execState. rewrite call_eq.
  destruct o as [title description now|id| |id]; cbn [snd]; try done.
  - unfold execState. rewrite Create_eq. cbn [snd]. intros k t. cbn [tasks].
    destruct (decide (Sprintf_task (nextID s) = k)) as [<-|Hne].
    + rewrite lookup_insert_eq. by intros [= <-].
    + rewrite lookup_insert_ne by done. apply Hs.
  - unfold execState. rewrite Delete_eq.
    destruct (tasks s !! id); [|done].
    intros k t'. cbn. intros Hl. apply lookup_delete_Some in Hl as [_ Hl].
    by apply (Hs k).
Qed.

(** A request changes the store only through one store method. *)
Lemma serve_store now r s :
  store (serve jsonDecode now r s) = s \/
  exists o, store (serve jsonDecode now r s) = execState (call o) s.
Proof.
  destruct (route_cases r) as [Hp|[(id & Hp & Hid)|[Hp Hrest]]].
  - rewrite serve_collection by done.
    destruct (bool_decide (Method r = MethodGet)).
    { left. by rewrite listTasks_eq. }
    destruct (bool_decide (Method r = MethodPost)); [|by left].
    rewrite createTask_eq.
    destruct (jsonDecode (Body r)) as [input|]; [|by left].
    case_bool_decide; [by left|]. right.
    exists (OpCreate (input.Title input) (input.Description input) now).
    unfold execState at 2. by rewrite call_eq.
  - rewrite (serve_item _ _ _ id) by done.
    destruct (bool_decide (Method r = MethodGet)).
    { left. rewrite getTask_eq. by destruct (tasks s !! id). }
    destruct (bool_decide (Method r = MethodDelete)); [|by left].
    rewrite deleteTask_eq. destruct (tasks s !! id); [|by left].
    right. exists (OpDelete id). unfold execState at 2. by rewrite call_eq.
  - left. by rewrite serve_other.
Qed.

Lemma reachable_allOpen s : reachable jsonDecode s -> allOpen s.
Proof.
  induction 1 as [|o s _ IH|now r s _ IH].
  - intros id task H. cbn in H. by rewrite lookup_empty in H.
  - by apply allOpen_call.
  - destruct (serve_store now r s) as [->|[o ->]]; [done|].
    by apply allOpen_call.
Qed.

Lemma GetAll_elems s task :
  task ∈ elems (evalState GetAll s) ->
  exists id, tasks s !! id = Some task.
Proof.
  unfold evalState. rewrite GetAll_eq. cbn [fst elems].
  intros Hin. apply list_elem_of_fmap in Hin as ([id t] & -> & Hin).
  exists id. by apply elem_of_map_to_list.
Qed.

(** The tasks a response carries were returned by [Create], or are
    stored. *)
Lemma serve_tasks now r s data task :
  data ∈ body (serve jsonDecode now r s) ->
  task ∈ tasksOf data ->
  (exists title description, task = evalState (Create title description now) s) \/
  (exists id, tasks s !! id = Some task).
Proof.
  destruct (route_cases r) as [Hp|[(id & Hp & Hid)|[Hp Hrest]]].
  - rewrite serve_collection by done.
    destruct (bool_decide (Method r = MethodGet)).
    { rewrite listTasks_eq. cbn. intros ->%list_elem_of_singleton. cbn.
      intros Hin. right. by apply GetAll_elems. }
    destruct (bool_decide (Method r = MethodPost)).
    2:{ cbn. by intros ->%list_elem_of_singleton ?%elem_of_nil. }
    rewrite createTask_eq.
    destruct (jsonDecode (Body r)) as [input|].
    2:{ cbn. by intros ->%list_elem_of_singleton ?%elem_of_nil. }
    case_bool_decide.
    { cbn. by intros ->%list_elem_of_singleton ?%elem_of_nil. }
    cbn [body w dataConn Written]. intros ->%list_elem_of_singleton.
    cbn [tasksOf]. intros ->%list_elem_of_singleton. left. eauto.
  - rewrite (serve_item _ _ _ id) by done.
    destruct (bool_decide (Method r = MethodGet)).
    { rewrite getTask_eq. destruct (tasks s !! id) as [t|] eqn:Ht.
      - cbn. intros ->%list_elem_of_singleton. cbn.
        intros ->%list_elem_of_singleton. right. eauto.
      - cbn. by intros ->%list_elem_of_singleton ?%elem_of_nil. }
    destruct (bool_decide (Method r = MethodDelete)).
    2:{ cbn. by intros ->%list_elem_of_singleton ?%elem_of_nil. }
    rewrite deleteTask_eq. destruct (tasks s !! id).
    + cbn. by intros ?%elem_of_nil.
    + cbn. by intros ->%list_elem_of_singleton ?%elem_of_nil.
  - rewrite serve_other by done.
    cbn. by intros ->%list_elem_of_singleton ?%elem_of_nil.
Qed.

(** C8. In every store state the public operations lead to, requests
    with any body included, every stored task has [Completed] false,
    and so has every task [Create], [Get] or [GetAll] returns there and
    every task a response carries. *)
Theorem Completed_always_false s :
  reachable jsonDecode s ->
  (forall id task, tasks s !! id = Some task -> Completed task = false) /\
  (forall title description now,
      Completed (evalState (Create title description now) s) = false) /\
  (forall id, Completed (fst (evalState (Get id) s)) = false) /\
  (forall task, task ∈ elems (evalState GetAll s) -> Completed task = false) /\
  (forall now r data task,
      data ∈ body (serve jsonDecode now r s) ->
      task ∈ tasksOf data -> Completed task = false).
Proof.
  intros Hs%reachable_allOpen. split_and!.
  - exact Hs.
  - reflexivity.
  - intros id. unfold evalState. rewrite Get_eq. cbn [fst].
    destruct (tasks s !! id) as [t|] eqn:Ht; [by apply (Hs id)|done].
  - intros task [id Hid]%GetAll_elems. by apply (Hs id).
  - intros now r data task Hd Ht.
    destruct (serve_tasks now r s data task Hd Ht)
      as [(title & description & ->)|[id Hid]]; [done|by apply (Hs id)].
Qed.

End HandlerProperties.

(** ** The handler on the requests of the repository's tests *)


Lemma ServeHTTP_status_witness :
  status (serve exampleDecode 1 {| Method := "PUT"; Path := "/tasks"; Body := "" |}
                NewTaskStore) = 405 /\
  status (serve exampleDecode 1 {| Method := "GET"; Path := "/unknown"; Body := "" |}
                NewTaskStore) = 404 /\
  status (serve exampleDecode 1
                {| Method := "GET"; Path := "/tasks/non-existent"; Body := "" |}
                NewTaskStore) = 404.
Proof.
  split_and!.
  - destruct (ServeHTTP_status exampleDecode 1
                {| Method := "PUT"; Path := "/tasks"; Body := "" |} NewTaskStore)
      as (H405 & _).
    apply H405; [reflexivity|discriminate|discriminate].
  - destruct (ServeHTTP_status exampleDecode 1
                {| Method := "GET"; Path := "/unknown"; Body := "" |} NewTaskStore)
      as (_ & _ & H404 & _).
    apply H404; [discriminate|intros rest; discriminate].
  - destruct (ServeHTTP_status exampleDecode 1
                {| Method := "GET"; Path := "/tasks/non-existent"; Body := "" |}
                NewTaskStore)
      as (_ & _ & _ & _ & _ & _ & Habsent).
    apply (Habsent "non-existent");
      [reflexivity|discriminate|left; reflexivity|reflexivity].
Defined.

(** C6, as stated, fails: a GET on /tasks/ is served as the list route
    and answered with status 200 and the (here empty) list of tasks. *)
Lemma GET_trailing_slash_is_list :
  let k := serve exampleDecode 1
                 {| Method := "GET"; Path := "/tasks/"; Body := "" |}
                 NewTaskStore in
  status k = 200 /\ body k = [DataTasks (mkSlice [])].
Proof. split; reflexivity. Qed.

Lemma ServeHTTP_trailing_slash_witness :
  let r := {| Method := "DELETE"; Path := "/tasks/"; Body := "" |} in
  let k := serve exampleDecode 1 r NewTaskStore in
  k = serve exampleDecode 1
            {| Method := Method r; Path := "/tasks"; Body := Body r |} NewTaskStore /\
  (Method r = MethodGet ->
   status k = 200 /\ body k = [DataTasks (evalState GetAll NewTaskStore)] /\
   store k = NewTaskStore) /\
  (Method r = MethodDelete ->
   status k = 405 /\
   body k = [DataMap {[ "error" := "method not allowed" ]}] /\
   store k = NewTaskStore /\ invoked k = []).
Proof.
  apply (ServeHTTP_trailing_slash exampleDecode 1
           {| Method := "DELETE"; Path := "/tasks/"; Body := "" |} NewTaskStore).
  reflexivity.
Defined.

Lemma Completed_always_false_witness :
  let s := store (serve exampleDecode 1
                        {| Method := "POST"; Path := "/tasks"; Body := "title=A" |}
                        NewTaskStore) in
  (forall id task, tasks s !! id = Some task -> Completed task = false) /\
  (forall title description now,
      Completed (evalState (Create title description now) s) = false) /\
  (forall id, Completed (fst (evalState (Get id) s)) = false) /\
  (forall task, task ∈ elems (evalState GetAll s) -> Completed task = false) /\
  (forall now r data task,
      data ∈ body (serve exampleDecode now r s) ->
      task ∈ tasksOf data -> Completed task = false).
Proof.
  apply (Completed_always_false exampleDecode).
  apply reachable_serve, reachable_new.
Defined.

(** * Further properties of the store *)

Lemma GetAll_elems_iff s task :
  task ∈ elems (evalState GetAll s) <-> exists id, tasks s !! id = Some task.
Proof.
  unfold evalState. rewrite GetAll_eq. cbn [fst elems]. split.
  - intros Hin. apply list_elem_of_fmap in Hin as ([id t] & -> & Hin).
    exists id. by apply elem_of_map_to_list.
  - intros [id Hid]. apply list_elem_of_fmap. exists (id, task).
    split; [done|]. by apply elem_of_map_to_list.
Qed.

Lemma keyed_reached ops : keyed (execState (run ops) NewTaskStore).
Proof. apply keyed_run, keyed_fresh. Qed.

(** The task [Create] is about to store goes under a key that is free,
    as long as fewer than [2 ^ 64] tasks were created. *)
Lemma Create_key_free ops :
  Z.of_nat (creates (evalState (run ops) NewTaskStore)) < 2 ^ 64 ->
  tasks (execState (run ops) NewTaskStore)
    !! Sprintf_task (nextID (execState (run ops) NewTaskStore)) = None.
Proof.
  intros Hlt. unfold evalState, execState in *.
  destruct (run_size ops 0 NewTaskStore issued_fresh) as [Hiss _].
  { unfold intSize. lia. }
  eapply (issued_Create _ _ "" "" 0 Hiss). unfold intSize. lia.
Qed.

(** X1. In every state the store methods lead to, [GetAll] returns each
    stored task once: the ids of the returned tasks are pairwise
    distinct, and a task is returned exactly when [Get] on its id finds
    it. *)
Theorem GetAll_agrees_with_Get ops :
  let s := execState (run ops) NewTaskStore in
  let all := elems (evalState GetAll s) in
  NoDup (ID <$> all) /\
  (forall task, task ∈ all <-> evalState (Get (ID task)) s = (task, true)) /\
  (forall id, snd (evalState (Get id) s) = true <-> id ∈ ID <$> all).
Proof.
  intros s all. pose proof (keyed_reached ops) as Hk. fold s in Hk.
  split_and!.
  - subst all. unfold evalState. rewrite GetAll_eq. cbn [fst elems].
    rewrite <- list_fmap_compose.
    rewrite (list_fmap_ext (ID ∘ snd) fst (map_to_list (tasks s))).
    + apply NoDup_fst_map_to_list.
    + intros i [k t] Hi. cbn. apply Hk.
      apply elem_of_map_to_list, list_elem_of_lookup. eauto.
  - intros task. subst all. rewrite GetAll_elems_iff.
    unfold evalState. rewrite Get_eq. cbn [fst]. split.
    + intros [id Hid]. rewrite <- (Hk _ _ Hid) in Hid. by rewrite Hid.
    + destruct (tasks s !! ID task) as [t|] eqn:Ht; [|done].
      intros [= ->]. eauto.
  - intros id. subst all. rewrite list_elem_of_fmap.
    unfold evalState at 1. rewrite Get_eq. cbn [fst snd]. split.
    + destruct (tasks s !! id) as [t|] eqn:Ht; [|done]. intros _.
      exists t. split; [by rewrite (Hk _ _ Ht)|].
      apply GetAll_elems_iff. eauto.
    + intros (t & -> & [k Hin]%GetAll_elems_iff).
      rewrite <- (Hk _ _ Hin) in Hin. by rewrite Hin.
Qed.

(** X2. After [Delete id], in every state the store methods lead to,
    [GetAll] returns the tasks it returned before except the one with
    that id: none is added and no other is lost. *)
Theorem Delete_removes_from_GetAll ops id :
  let s := execState (run ops) NewTaskStore in
  let s' := execState (Delete id) s in
  forall task,
    task ∈ elems (evalState GetAll s')
    <-> task ∈ elems (evalState GetAll s) /\ ID task <> id.
Proof.
  intros s s' task. pose proof (keyed_reached ops) as Hk. fold s in Hk.
  assert (Htasks : tasks s' = delete id (tasks s)).
  { subst s'. unfold execState. rewrite Delete_eq.
    destruct (tasks s !! id) eqn:Hid; [done|]. by rewrite delete_id. }
  rewrite !GetAll_elems_iff, Htasks. split.
  - intros [k [Hne Hin]%lookup_delete_Some]. split; [eauto|].
    by rewrite (Hk _ _ Hin).
  - intros [[k Hin] Hne]. exists k. apply lookup_delete_Some.
    split; [|done]. by rewrite <- (Hk _ _ Hin).
Qed.

(** X3. As long as fewer than [2 ^ 64] tasks were created on a fresh
    store, [Create] overwrites nothing: the id it returns was not in the
    store, [GetAll] afterwards returns the new task and the tasks it
    returned before, and [Get] on any other id answers as before. *)
Theorem Create_adds_one_task ops title description now :
  let rs := evalState (run ops) NewTaskStore in
  let s := execState (run ops) NewTaskStore in
  Z.of_nat (creates rs) < 2 ^ 64 ->
  let (task, s') := Create title description now s in
  snd (evalState (Get (ID task)) s) = false /\
  elems (evalState GetAll s') ≡ₚ task :: elems (evalState GetAll s) /\
  (forall id, id <> ID task -> evalState (Get id) s' = evalState (Get id) s).
Proof.
  intros rs s Hlt. pose proof (Create_key_free ops Hlt) as Hfree. fold s in Hfree.
  rewrite Create_eq. cbv beta iota zeta. cbn [ID].
  unfold evalState. rewrite !GetAll_eq, !Get_eq. cbn [fst snd elems tasks].
  rewrite Hfree. split_and!.
  - done.
  - by rewrite map_to_list_insert.
  - intros id Hne. rewrite !Get_eq. cbn [fst tasks].
    by rewrite lookup_insert_ne.
Qed.

Lemma Create_adds_one_task_witness :
  let s := execState (run [OpCreate "a" "" 1; OpDelete "task-1"]) NewTaskStore in
  let (task, s') := Create "b" "c" 2 s in
  snd (evalState (Get (ID task)) s) = false /\
  elems (evalState GetAll s') ≡ₚ task :: elems (evalState GetAll s) /\
  (forall id, id <> ID task -> evalState (Get id) s' = evalState (Get id) s).
Proof.
  apply (Create_adds_one_task [OpCreate "a" "" 1; OpDelete "task-1"] "b" "c" 2).
  vm_compute. reflexivity.
Defined.

(** X4. As long as fewer than [2 ^ 64] tasks were created on a fresh
    store, deleting the task [Create] just returned reports [true] and
    puts the map of tasks back as it was before the [Create]; the counter
    stays advanced, so the id is not handed out again. *)
Theorem Create_then_Delete ops title description now :
  let rs := evalState (run ops) NewTaskStore in
  let s := execState (run ops) NewTaskStore in
  Z.of_nat (creates rs) < 2 ^ 64 ->
  let (task, s1) := Create title description now s in
  let (deleted, s2) := Delete (ID task) s1 in
  deleted = true /\
  tasks s2 = tasks s /\
  nextID s2 = wrapInt (nextID s + 1) /\
  ID (evalState (Create title description now) s2) <> ID task.
Proof.
  intros rs s Hlt. pose proof (Create_key_free ops Hlt) as Hfree. fold s in Hfree.
  rewrite Create_eq. cbv beta iota zeta. cbn [ID].
  rewrite Delete_eq. cbn [tasks nextID]. rewrite lookup_insert_eq.
  split_and!; [done|by rewrite delete_insert_id|done|].
  unfold evalState. rewrite Create_eq. cbn [fst ID nextID].
  intros Heq%Sprintf_task_inj.
  destruct (run_counter ops 1 NewTaskStore nextID_fresh) as [Hnext _].
  change (nextID s = wrapInt (1 + Z.of_nat (creates (run ops NewTaskStore).1)))
    in Hnext.
  rewrite Hnext, wrapInt_add_l in Heq.
  apply (wrapInt_window (1 + Z.of_nat (creates (run ops NewTaskStore).1)) 0 1);
    [lia|lia|unfold intSize; lia|].
  by rewrite Z.add_0_r.
Qed.

Lemma Create_then_Delete_witness :
  let s := execState (run [OpCreate "a" "" 1]) NewTaskStore in
  let (task, s1) := Create "b" "c" 2 s in
  let (deleted, s2) := Delete (ID task) s1 in
  deleted = true /\
  tasks s2 = tasks s /\
  nextID s2 = wrapInt (nextID s + 1) /\
  ID (evalState (Create "b" "c" 2) s2) <> ID task.
Proof.
  apply (Create_then_Delete [OpCreate "a" "" 1] "b" "c" 2).
  vm_compute. reflexivity.
Defined.

(** * Further properties of the handler *)

Section ServerProperties.

Variable jsonDecode : string -> option input.t.

Lemma serve_Outcome now r s : Outcome now r s (serve jsonDecode now r s).
Proof.
  destruct (route_cases r) as [Hp|[(id & Hp & Hid)|[Hp Hrest]]].
  - rewrite serve_collection by done.
    case_bool_decide as Hget.
    { rewrite listTasks_eq. by constructor. }
    case_bool_decide as Hpost.
    2:{ rewrite methodNotAllowed_eq. constructor. auto. }
    rewrite createTask_eq.
    destruct (jsonDecode (Body r)) as [input|].
    2:{ constructor. auto. }
    case_bool_decide.
    { constructor. auto. }
    by constructor.
  - rewrite (serve_item _ _ _ _ id) by done.
    case_bool_decide as Hget.
    { rewrite getTask_eq. destruct (tasks s !! id) as [t|] eqn:Ht.
      - by constructor.
      - apply (OutcomeMissing _ _ _ id); auto. }
    case_bool_decide as Hdel.
    2:{ rewrite methodNotAllowed_eq. constructor. auto. }
    rewrite deleteTask_eq. destruct (tasks s !! id) as [t|] eqn:Ht.
    + constructor; eauto.
    + apply (OutcomeMissing _ _ _ id); auto.
  - rewrite serve_other by done. rewrite notFound_eq. constructor. auto.
Qed.

Lemma execState_call_Delete id s :
  execState (Delete id) s = execState (call (OpDelete id)) s.
Proof. unfold execState at 2. by rewrite call_eq. Qed.

(** X5. A task created by POST /tasks is returned by a following GET on
    its id: the POST is answered 201 with the task made of the decoded
    title and description, not completed, with the next id of the store
    and the clock's reading, after one call of the store's [Create]; the
    GET on /tasks/ followed by that id is answered 200 with the same
    task and leaves the store alone. *)
Theorem POST_then_GET now now' r body' s input :
  Path r = "/tasks" ->
  Method r = MethodPost ->
  jsonDecode (Body r) = Some input ->
  input.Title input <> "" ->
  let k := serve jsonDecode now r s in
  let task := {| ID := Sprintf_task (nextID s); Title := input.Title input;
                 Description := input.Description input;
                 Completed := false; CreatedAt := now |} in
  status k = 201 /\
  body k = [DataTask task] /\
  invoked k = [CallCreate (input.Title input) (input.Description input)] /\
  let k' := serve jsonDecode now'
                  {| Method := MethodGet; Path := "/tasks/" +:+ ID task;
                     Body := body' |} (store k) in
  status k' = 200 /\ body k' = [DataTask task] /\ store k' = store k.
Proof.
  intros Hp Hm Hdec Htitle k task. subst k.
  rewrite serve_collection by auto.
  rewrite Hm, bool_decide_eq_false_2 by done.
  rewrite bool_decide_eq_true_2 by done.
  rewrite createTask_eq, Hdec, bool_decide_eq_false_2 by done.
  unfold evalState, execState. rewrite Create_eq. cbv zeta. cbn [fst snd].
  fold task. refine (conj _ (conj _ (conj _ _))); [done..|].
  cbn [store dataConn].
  rewrite (serve_item _ _ _ _ (ID task))
    by (cbn [Path ID task]; auto using Sprintf_task_nonempty).
  cbn [Method]. rewrite bool_decide_eq_true_2 by done.
  rewrite getTask_eq. cbn [tasks ID task]. by rewrite lookup_insert_eq.
Qed.

(** X6. A DELETE on /tasks/{id} of a stored task is answered 204 with
    no body and no Content-Type, and removes that record and nothing
    else; a GET or a second DELETE on the same id is then answered 404
    with the error task not found, the store left as it is. *)
Theorem DELETE_then_GET now now' r r' s id :
  id <> "" ->
  is_Some (tasks s !! id) ->
  Path r = "/tasks/" +:+ id -> Method r = MethodDelete ->
  Path r' = "/tasks/" +:+ id ->
  Method r' = MethodGet \/ Method r' = MethodDelete ->
  let k := serve jsonDecode now r s in
  status k = 204 /\ body k = [] /\ Header (w k) = ∅ /\
  tasks (store k) = delete id (tasks s) /\
  nextID (store k) = nextID s /\
  let k' := serve jsonDecode now' r' (store k) in
  status k' = 404 /\
  body k' = [DataMap {[ "error" := "task not found" ]}] /\
  store k' = store k.
Proof.
  intros Hid [t Ht] Hp Hm Hp' Hm' k. subst k.
  rewrite (serve_item _ _ _ _ id) by done.
  rewrite Hm, bool_decide_eq_false_2 by done.
  rewrite bool_decide_eq_true_2 by done.
  rewrite deleteTask_eq, Ht. cbn [store w].
  assert (Hdel : execState (Delete id) s
                 = {| tasks := delete id (tasks s); nextID := nextID s |}).
  { unfold execState. by rewrite Delete_eq, Ht. }
  rewrite !Hdel. cbn [tasks nextID].
  refine (conj _ (conj _ (conj _ (conj _ (conj _ _))))); [done..|].
  rewrite (serve_item _ _ _ _ id) by done.
  rewrite getTask_eq, deleteTask_eq. cbn [tasks]. rewrite lookup_delete_eq.
  destruct Hm' as [-> | ->].
  - by rewrite bool_decide_eq_true_2.
  - rewrite bool_decide_eq_false_2 by done. by rewrite bool_decide_eq_true_2.
Qed.

(** X7. A request answered with an error status (400 or above) has not
    changed the store. *)
Theorem error_keeps_store now r s :
  400 <= status (serve jsonDecode now r s) ->
  store (serve jsonDecode now r s) = s.
Proof.
  generalize (serve_Outcome now r s).
  generalize (serve jsonDecode now r s). intros k Hk.
  destruct Hk as [st message Hst| |title description Hm|id task Hm Ht
                 |id c Hm Ht|id Hm Ht]; cbn; done.
Qed.

(** X8. Only POST and DELETE requests can change the store: a request
    with any other method, on any path, leaves it as it was. *)
Theorem other_methods_keep_store now r s :
  Method r <> MethodPost ->
  Method r <> MethodDelete ->
  store (serve jsonDecode now r s) = s.
Proof.
  intros Hpost Hdel.
  generalize (serve_Outcome now r s).
  generalize (serve jsonDecode now r s). intros k Hk.
  by destruct Hk.
Qed.

(** X9. Every response has one of two shapes: status 204 with no body
    and no header; or Content-Type application/json as the only header
    and exactly one JSON value in the body, which is the task list with
    status 200, one task with status 200 or 201, or an object with the
    single key error with status 400, 404 or 405. *)
Theorem response_shape now r s :
  let k := serve jsonDecode now r s in
  (status k = 204 /\ body k = [] /\ Header (w k) = ∅) \/
  (Header (w k) = {[ "Content-Type" := "application/json" ]} /\
   ((status k = 200 /\ exists all, body k = [DataTasks all]) \/
    ((status k = 200 \/ status k = 201) /\
     exists task, body k = [DataTask task]) \/
    ((status k = 400 \/ status k = 404 \/ status k = 405) /\
     exists message, body k = [DataMap {[ "error" := message ]}]))).
Proof.
  cbv zeta.
  generalize (serve_Outcome now r s).
  generalize (serve jsonDecode now r s). intros k Hk.
  destruct Hk as [st message Hst| |title description Hm|id task Hm Ht
                 |id c Hm Ht|id Hm Ht]; cbn.
  - right. split; [apply insert_empty|]. right; right. split; eauto.
  - right. split; [apply insert_empty|]. left. eauto.
  - right. split; [apply insert_empty|]. right; left. eauto.
  - right. split; [apply insert_empty|]. right; left. eauto.
  - right. split; [apply insert_empty|]. right; right. eauto.
  - by left.
Qed.

Lemma run_snoc ops o s :
  execState (run (ops ++ [o])) s = execState (call o) (execState (run ops) s).
Proof.
  unfold execState. rewrite run_app. cbn [snd]. rewrite run_cons.
  cbn [snd run sret]. reflexivity.
Qed.

(** X10. The server adds no store behaviour of its own: every store
    state reached by serving requests and calling the store is reached
    by a run of calls of the four store methods on a new store. *)
Theorem reachable_by_store_calls s :
  reachable jsonDecode s ->
  exists ops, s = execState (run ops) NewTaskStore.
Proof.
  induction 1 as [|o s _ [ops ->]|now r s _ [ops ->]].
  - by exists [].
  - exists (ops ++ [o])%list. by rewrite run_snoc.
  - destruct (serve_store jsonDecode now r (execState (run ops) NewTaskStore))
      as [->|[o ->]].
    + by exists ops.
    + exists (ops ++ [o])%list. by rewrite run_snoc.
Qed.

Lemma keys_issued_call o s :
  (forall id, is_Some (tasks s !! id) -> exists n, id = Sprintf_task n) ->
  forall id, is_Some (tasks (execState (call o) s) !! id) ->
             exists n, id = Sprintf_task n.
Proof.
  intros Hs id. unfold execState. rewrite call_eq.
  destruct o as [title description now|id'| |id']; cbn [snd]; try apply Hs.
  - unfold execState. rewrite Create_eq. cbn [snd tasks].
    destruct (decide (Sprintf_task (nextID s) = id)) as [<-|Hne]; [eauto|].
    rewrite lookup_insert_ne by done. apply Hs.
  - unfold execState. rewrite Delete_eq.
    destruct (tasks s !! id') as [t'|]; [|apply Hs]. cbn [snd tasks].
    intros [t [_ Ht]%lookup_delete_Some]. apply Hs. eauto.
Qed.

Lemma reachable_keys_issued s :
  reachable jsonDecode s ->
  forall id, is_Some (tasks s !! id) -> exists n, id = Sprintf_task n.
Proof.
  induction 1 as [|o s _ IH|now r s _ IH].
  - intros id [t Ht]. cbn in Ht. by rewrite lookup_empty in Ht.
  - by apply keys_issued_call.
  - destruct (serve_store jsonDecode now r s) as [->|[o ->]]; [done|].
    by apply keys_issued_call.
Qed.

(** X11. Every id the store holds starts with task-, so in every state
    the public operations lead to a GET or DELETE on /tasks/{id} with an
    id that does not start with task- is answered 404 and changes
    nothing. *)
Theorem unissued_id_not_found now r s id :
  reachable jsonDecode s ->
  id <> "" ->
  HasPrefix id "task-" = false ->
  Path r = "/tasks/" +:+ id ->
  Method r = MethodGet \/ Method r = MethodDelete ->
  status (serve jsonDecode now r s) = 404 /\
  store (serve jsonDecode now r s) = s.
Proof.
  intros Hs Hid Hpre Hp Hm.
  assert (Hnone : tasks s !! id = None).
  { destruct (tasks s !! id) as [t|] eqn:Ht; [|done].
    destruct (reachable_keys_issued s Hs id (mk_is_Some _ _ Ht)) as [n ->].
    unfold Sprintf_task in Hpre. by rewrite HasPrefix_app in Hpre. }
  rewrite (serve_item _ _ _ _ id) by done.
  rewrite getTask_eq, deleteTask_eq, Hnone.
  destruct Hm as [-> | ->].
  - by rewrite bool_decide_eq_true_2.
  - rewrite bool_decide_eq_false_2 by done. by rewrite bool_decide_eq_true_2.
Qed.

(** X12. GET /tasks is answered 200 with one JSON array that is never
    null and holds exactly the stored tasks, as many as the store has
    records; the store is left as it was. *)
Theorem GET_tasks_lists_all now r s :
  Path r = "/tasks" ->
  Method r = MethodGet ->
  let k := serve jsonDecode now r s in
  status k = 200 /\
  store k = s /\
  exists all,
    body k = [DataTasks all] /\
    isNil all = false /\
    len all = size (tasks s) /\
    forall task, task ∈ elems all <-> exists id, tasks s !! id = Some task.
Proof.
  intros Hp Hm k. subst k. rewrite serve_collection by auto.
  rewrite bool_decide_eq_true_2 by done. rewrite listTasks_eq.
  split_and!; [done..|]. exists (evalState GetAll s).
  split_and!; [done| |apply len_GetAll|apply GetAll_elems_iff].
  unfold evalState. by rewrite GetAll_eq.
Qed.

End ServerProperties.


Lemma POST_then_GET_witness :
  let k := serve exampleDecode 7
                 {| Method := "POST"; Path := "/tasks"; Body := "title=A" |}
                 NewTaskStore in
  let task := {| ID := "task-1"; Title := "A"; Description := "";
                 Completed := false; CreatedAt := 7 |} in
  status k = 201 /\
  body k = [DataTask task] /\
  invoked k = [CallCreate "A" ""] /\
  let k' := serve exampleDecode 8
                  {| Method := "GET"; Path := "/tasks/task-1"; Body := "" |}
                  (store k) in
  status k' = 200 /\ body k' = [DataTask task] /\ store k' = store k.
Proof.
  apply (POST_then_GET exampleDecode 7 8
           {| Method := "POST"; Path := "/tasks"; Body := "title=A" |} ""
           NewTaskStore (input.mk "A" ""));
    [reflexivity|reflexivity|reflexivity|discriminate].
Defined.

Lemma DELETE_then_GET_witness :
  let s := execState (Create "a" "" 1) NewTaskStore in
  let k := serve exampleDecode 2
                 {| Method := "DELETE"; Path := "/tasks/task-1"; Body := "" |} s in
  status k = 204 /\ body k = [] /\ Header (w k) = ∅ /\
  tasks (store k) = delete "task-1" (tasks s) /\
  nextID (store k) = nextID s /\
  let k' := serve exampleDecode 3
                  {| Method := "GET"; Path := "/tasks/task-1"; Body := "" |}
                  (store k) in
  status k' = 404 /\
  body k' = [DataMap {[ "error" := "task not found" ]}] /\
  store k' = store k.
Proof.
  apply (DELETE_then_GET exampleDecode 2 3
           {| Method := "DELETE"; Path := "/tasks/task-1"; Body := "" |}
           {| Method := "GET"; Path := "/tasks/task-1"; Body := "" |}
           (execState (Create "a" "" 1) NewTaskStore) "task-1");
    [discriminate|vm_compute; eauto|reflexivity|reflexivity|reflexivity
    |left; reflexivity].
Defined.

Lemma error_keeps_store_witness :
  store (serve exampleDecode 1
               {| Method := "POST"; Path := "/tasks"; Body := "{invalid json}" |}
               NewTaskStore) = NewTaskStore.
Proof.
  apply (error_keeps_store exampleDecode 1
           {| Method := "POST"; Path := "/tasks"; Body := "{invalid json}" |}
           NewTaskStore).
  vm_compute. discriminate.
Defined.

Lemma other_methods_keep_store_witness :
  let s := execState (Create "a" "" 1) NewTaskStore in
  store (serve exampleDecode 2
               {| Method := "PUT"; Path := "/tasks/task-1"; Body := "title=B" |} s)
  = s.
Proof.
  apply (other_methods_keep_store exampleDecode 2
           {| Method := "PUT"; Path := "/tasks/task-1"; Body := "title=B" |}
           (execState (Create "a" "" 1) NewTaskStore));
    discriminate.
Defined.

Lemma reachable_by_store_calls_witness :
  exists ops,
    store (serve exampleDecode 1
                 {| Method := "POST"; Path := "/tasks"; Body := "title=A" |}
                 NewTaskStore)
    = execState (run ops) NewTaskStore.
Proof.
  apply (reachable_by_store_calls exampleDecode).
  apply reachable_serve, reachable_new.
Defined.

Lemma unissued_id_not_found_witness :
  let s := store (serve exampleDecode 1
                        {| Method := "POST"; Path := "/tasks"; Body := "title=A" |}
                        NewTaskStore) in
  let r := {| Method := "GET"; Path := "/tasks/non-existent"; Body := "" |} in
  status (serve exampleDecode 2 r s) = 404 /\
  store (serve exampleDecode 2 r s) = s.
Proof.
  apply (unissued_id_not_found exampleDecode 2
           {| Method := "GET"; Path := "/tasks/non-existent"; Body := "" |}
           _ "non-existent");
    [apply reachable_serve, reachable_new|discriminate|reflexivity|reflexivity
    |left; reflexivity].
Defined.

Lemma GET_tasks_lists_all_witness :
  let s := execState (Create "a" "" 1) NewTaskStore in
  let k := serve exampleDecode 2 {| Method := "GET"; Path := "/tasks"; Body := "" |} s in
  status k = 200 /\
  store k = s /\
  exists all,
    body k = [DataTasks all] /\
    isNil all = false /\
    len all = size (tasks s) /\
    forall task, task ∈ elems all <-> exists id, tasks s !! id = Some task.
Proof.
  apply (GET_tasks_lists_all exampleDecode 2
           {| Method := "GET"; Path := "/tasks"; Body := "" |}
           (execState (Create "a" "" 1) NewTaskStore));
    reflexivity.
Defined.

(** * The variant on a ServeMux *)

Lemma Mux_Get_eq id s :
  Mux.Get id s = (match Mux.tasks s !! id with
                  | Some task => (task, true)
                  | None => (zeroTask, false)
                  end, s).
Proof. unfold Mux.Get; unfold_state. by destruct (Mux.tasks s !! id). Qed.

Lemma Mux_Delete_eq id s :
  Mux.Delete id s = match Mux.tasks s !! id with
                    | None => (false, s)
                    | Some _ => (true, {| Mux.tasks := delete id (Mux.tasks s) |})
                    end.
Proof. unfold Mux.Delete; unfold_state. by destruct (Mux.tasks s !! id). Qed.

Lemma Mux_GetAll_eq s :
  Mux.GetAll s = (mkSlice (snd <$> map_to_list (Mux.tasks s)), s).
Proof.
  unfold Mux.GetAll, make; unfold_state. f_equal.
  generalize (map_to_list (Mux.tasks s)). intros l.
  rewrite <- (app_nil_l (snd <$> l)). generalize (@nil Task).
  induction l as [|kv l IH]; intros acc; simpl.
  - by rewrite app_nil_r.
  - rewrite IH. by rewrite <- app_assoc.
Qed.

Lemma Mux_len_GetAll s : len (evalState Mux.GetAll s) = size (Mux.tasks s).
Proof.
  unfold evalState. rewrite Mux_GetAll_eq. cbn [fst len].
  by rewrite length_fmap, length_map_to_list.
Qed.

(** X13. In the ServeMux variant [Create] files the task under the id
    the task itself carries: [Get] on that id then returns this task,
    whatever was stored under the id before; other ids are not touched;
    and [GetAll] grows by one task only if the id was not in the store,
    a task already stored under it being replaced. *)
Theorem Mux_Create_then_Get task s :
  let s' := execState (Mux.Create task) s in
  evalState (Mux.Get (ID task)) s' = (task, true) /\
  (forall id, id <> ID task ->
              evalState (Mux.Get id) s' = evalState (Mux.Get id) s) /\
  len (evalState Mux.GetAll s')
  = if snd (evalState (Mux.Get (ID task)) s)
    then len (evalState Mux.GetAll s)
    else S (len (evalState Mux.GetAll s)).
Proof.
  cbv zeta. rewrite !Mux_len_GetAll.
  unfold evalState, execState, Mux.Create, smodify. cbn [snd].
  rewrite !Mux_Get_eq. cbn [fst snd Mux.tasks]. split_and!.
  - by rewrite lookup_insert_eq.
  - intros id Hne. rewrite !Mux_Get_eq. cbn [fst Mux.tasks].
    by rewrite lookup_insert_ne.
  - rewrite map_size_insert. by destruct (Mux.tasks s !! ID task).
Qed.

Section MuxProperties.

Variable jsonDecode : string -> option Task.
Variable jsonEncodes : Data -> bool.

Lemma Mux_handleTasks_eq nano now r s :
  execState (Mux.handleTasks jsonDecode jsonEncodes nano now r) (Mux.freshConn s)
  = if bool_decide (Method r = MethodGet) then
      if jsonEncodes (DataTasks (evalState Mux.GetAll s))
      then Mux.jsonReply s StatusOK [Mux.Json (DataTasks (evalState Mux.GetAll s))]
      else Mux.errorReply s Mux.StatusInternalServerError "internal server error"
    else if bool_decide (Method r = MethodPost) then
      match jsonDecode (Body r) with
      | None => Mux.errorReply s StatusBadRequest "invalid JSON"
      | Some decoded =>
          if bool_decide (Title decoded = "")
          then Mux.errorReply s StatusBadRequest "title is required"
          else
            let task := {| ID := pretty nano; Title := Title decoded;
                           Description := Description decoded;
                           Completed := Completed decoded; CreatedAt := now |} in
            Mux.jsonReply
              {| Mux.tasks := <[pretty nano := task]> (Mux.tasks s) |}
              StatusCreated
              [if jsonEncodes (DataTask task) then Mux.Json (DataTask task)
               else Mux.Line (Mux.errorText "internal server error")]
      end
    else Mux.errorReply s StatusMethodNotAllowed "method not allowed".
Proof.
  unfold Mux.handleTasks, execState, sbind, Mux.onWriter, smodify, Mux.freshConn.
  cbn [Mux.store Mux.w snd].
  case_bool_decide; [|case_bool_decide; [|done]].
  - unfold Mux.listTasks, Mux.onStore, Mux.Encode, sbind, evalState.
    cbn [Mux.store Mux.w]. rewrite Mux_GetAll_eq. cbn [fst].
    by destruct (jsonEncodes _).
  - unfold Mux.createTask. destruct (jsonDecode (Body r)) as [decoded|]; [|done].
    case_bool_decide; [done|].
    unfold Mux.onStore, Mux.onWriter, Mux.Encode, Mux.Create, sbind, smodify.
    cbn [Mux.store Mux.w]. cbv zeta.
    by destruct (jsonEncodes _).
Qed.

Lemma Mux_handleTaskByID_eq r s id :
  Mux.sliceFrom (Path r) (String.length "/tasks/") = Some id ->
  Mux.handleTaskByID jsonEncodes r (Mux.freshConn s)
  = Some
      (if bool_decide (id = "") then
         Mux.errorReply s StatusBadRequest "task ID required"
       else if bool_decide (Method r = MethodGet) then
         match Mux.tasks s !! id with
         | None => Mux.errorReply s StatusNotFound "task not found"
         | Some task =>
             if jsonEncodes (DataTask task)
             then Mux.jsonReply s StatusOK [Mux.Json (DataTask task)]
             else Mux.errorReply s Mux.StatusInternalServerError
                                 "internal server error"
         end
       else if bool_decide (Method r = MethodDelete) then
         match Mux.tasks s !! id with
         | None => Mux.errorReply s StatusNotFound "task not found"
         | Some _ =>
             Mux.jsonReply {| Mux.tasks := delete id (Mux.tasks s) |}
                           StatusNoContent []
         end
       else Mux.errorReply s StatusMethodNotAllowed "method not allowed").
Proof.
  intros Hid. unfold Mux.handleTaskByID. cbv zeta. rewrite Hid. f_equal.
  unfold execState, sbind, Mux.onWriter, smodify, Mux.freshConn.
  cbn [Mux.store Mux.w snd].
  case_bool_decide; [done|].
  case_bool_decide; [|case_bool_decide; [|done]].
  - unfold Mux.getTask, Mux.onStore, Mux.Encode, sbind.
    cbn [Mux.store Mux.w]. rewrite Mux_Get_eq.
    destruct (Mux.tasks s !! id) as [task|]; [|done]. cbn [fst snd negb].
    by destruct (jsonEncodes _).
  - unfold Mux.deleteTask, Mux.onStore, sbind.
    cbn [Mux.store Mux.w]. rewrite Mux_Delete_eq.
    by destruct (Mux.tasks s !! id).
Qed.

(** X14. In the ServeMux variant a POST on /tasks with a decodable body
    and a title stores the decoded task with two fields replaced: the id
    is the clock's nanoseconds in decimal and the creation time the
    clock's reading; the completed flag is the one the body gave.  The
    answer has status 201 and Content-Type application/json even when
    the task cannot be encoded, in which case the body is the error
    text. *)
Theorem Mux_createTask_stores nano now r s decoded :
  Method r = MethodPost ->
  jsonDecode (Body r) = Some decoded ->
  Title decoded <> "" ->
  let k := execState (Mux.handleTasks jsonDecode jsonEncodes nano now r)
                     (Mux.freshConn s) in
  let task := {| ID := pretty nano; Title := Title decoded;
                 Description := Description decoded;
                 Completed := Completed decoded; CreatedAt := now |} in
  Mux.tasks (Mux.store k) = <[pretty nano := task]> (Mux.tasks s) /\
  Mux.status k = 201 /\
  Mux.Header (Mux.w k) !! "Content-Type" = Some "application/json" /\
  Mux.Written (Mux.w k)
  = [if jsonEncodes (DataTask task) then Mux.Json (DataTask task)
     else Mux.Line (Mux.errorText "internal server error")].
Proof.
  intros Hm Hdec Htitle k task. subst k. rewrite Mux_handleTasks_eq.
  rewrite Hm, bool_decide_eq_false_2 by done.
  rewrite bool_decide_eq_true_2 by done.
  by rewrite Hdec, bool_decide_eq_false_2 by done.
Qed.

(** X15. In the ServeMux variant the id is only as unique as the clock
    is fine: when two POSTs on /tasks read the same nanosecond, both are
    answered 201, yet the second task replaces the first under the
    shared id and the store holds one record for the two. *)
Theorem Mux_createTask_same_nano nano now1 now2 r1 r2 s d1 d2 :
  Method r1 = MethodPost -> Method r2 = MethodPost ->
  jsonDecode (Body r1) = Some d1 -> Title d1 <> "" ->
  jsonDecode (Body r2) = Some d2 -> Title d2 <> "" ->
  let k1 := execState (Mux.handleTasks jsonDecode jsonEncodes nano now1 r1)
                      (Mux.freshConn s) in
  let k2 := execState (Mux.handleTasks jsonDecode jsonEncodes nano now2 r2)
                      (Mux.freshConn (Mux.store k1)) in
  let task2 := {| ID := pretty nano; Title := Title d2;
                  Description := Description d2;
                  Completed := Completed d2; CreatedAt := now2 |} in
  Mux.status k1 = 201 /\ Mux.status k2 = 201 /\
  Mux.tasks (Mux.store k2) = <[pretty nano := task2]> (Mux.tasks s) /\
  evalState (Mux.Get (pretty nano)) (Mux.store k2) = (task2, true) /\
  size (Mux.tasks (Mux.store k2)) = size (Mux.tasks (Mux.store k1)).
Proof.
  intros Hm1 Hm2 Hd1 Ht1 Hd2 Ht2 k1 k2 task2. subst k1 k2.
  rewrite !Mux_handleTasks_eq.
  rewrite Hm1, Hm2, !(bool_decide_eq_false_2 (MethodPost = MethodGet)) by done.
  rewrite !(bool_decide_eq_true_2 (MethodPost = MethodPost)) by done.
  rewrite Hd1, Hd2, !bool_decide_eq_false_2 by done.
  cbv zeta. cbn [Mux.store Mux.jsonReply Mux.tasks]. fold task2.
  rewrite insert_insert_eq. unfold evalState. rewrite Mux_Get_eq.
  cbn [fst Mux.tasks]. rewrite lookup_insert_eq.
  split_and!; [done..|].
  rewrite !map_size_insert. by destruct (Mux.tasks s !! pretty nano).
Qed.

Lemma length_app_string prefix rest :
  String.length (prefix +:+ rest)
  = (String.length prefix + String.length rest)%nat.
Proof.
  induction prefix as [|c prefix IH]; [done|].
  change (String c prefix +:+ rest) with (String c (prefix +:+ rest)).
  cbn [String.length]. by rewrite IH.
Qed.

Lemma sliceFrom_app prefix rest :
  Mux.sliceFrom (prefix +:+ rest) (String.length prefix) = Some rest.
Proof.
  unfold Mux.sliceFrom. rewrite length_app_string.
  rewrite bool_decide_eq_true_2 by lia. f_equal.
  replace (String.length prefix + String.length rest - String.length prefix)%nat
    with (String.length rest) by lia.
  induction prefix as [|c prefix IH]; [apply substring_all|].
  change (String c prefix +:+ rest) with (String c (prefix +:+ rest)).
  exact IH.
Qed.

(** X16. In the ServeMux variant [handleTaskByID] cuts the first seven
    bytes off the path without looking at them: it panics exactly on a
    path shorter than that, hence on no path that starts with /tasks/;
    and on the bare path /tasks/ it answers 400 with the error task ID
    required, as plain text, for every method and without touching the
    store. *)
Theorem Mux_handleTaskByID_edges r s :
  (Mux.handleTaskByID jsonEncodes r (Mux.freshConn s) = None
   <-> (String.length (Path r) < 7)%nat) /\
  (forall id, Path r = "/tasks/" +:+ id ->
              is_Some (Mux.handleTaskByID jsonEncodes r (Mux.freshConn s))) /\
  (Path r = "/tasks/" ->
   exists k, Mux.handleTaskByID jsonEncodes r (Mux.freshConn s) = Some k /\
             Mux.status k = 400 /\
             Mux.Written (Mux.w k) = [Mux.Line (Mux.errorText "task ID required")] /\
             Mux.Header (Mux.w k) !! "Content-Type"
             = Some "text/plain; charset=utf-8" /\
             Mux.store k = s).
Proof.
  split_and!.
  - unfold Mux.handleTaskByID, Mux.sliceFrom. cbv zeta.
    change (String.length "/tasks/") with 7%nat.
    case_bool_decide; split; intros; (done || lia).
  - intros id Hp. erewrite Mux_handleTaskByID_eq; [eauto|].
    rewrite Hp. apply sliceFrom_app.
  - intros Hp. erewrite (Mux_handleTaskByID_eq _ _ "").
    2:{ rewrite Hp. apply (sliceFrom_app "/tasks/" ""). }
    eexists. split; [reflexivity|]. done.
Qed.

Lemma Mux_errorReply_spec s st message :
  Mux.isErrorReply (Mux.errorReply s st message).
Proof. unfold Mux.isErrorReply. split_and!; [done|done|eauto]. Qed.

(** X17. In the ServeMux variant every reply with an error status (400
    or above), from [handleTasks] as from [handleTaskByID], is marked
    text/plain and nosniff, carries one line of error text and leaves
    the store unchanged; every other reply is marked application/json. *)
Theorem Mux_error_replies_are_plain_text nano now r s k :
  k = execState (Mux.handleTasks jsonDecode jsonEncodes nano now r)
                (Mux.freshConn s) \/
  Mux.handleTaskByID jsonEncodes r (Mux.freshConn s) = Some k ->
  (400 <= Mux.status k -> Mux.isErrorReply k /\ Mux.store k = s) /\
  (Mux.status k < 400 ->
   Mux.Header (Mux.w k) !! "Content-Type" = Some "application/json").
Proof.
  intros [->|Hk].
  - rewrite Mux_handleTasks_eq.
    repeat (case_bool_decide || case_match);
      split; intros Hst; try done;
      auto using Mux_errorReply_spec.
  - destruct (Mux.sliceFrom (Path r) (String.length "/tasks/")) as [id|] eqn:Hid.
    2:{ unfold Mux.handleTaskByID in Hk. cbv zeta in Hk. by rewrite Hid in Hk. }
    rewrite (Mux_handleTaskByID_eq _ _ id Hid) in Hk. injection Hk as <-.
    repeat (case_bool_decide || case_match);
      split; intros Hst; try done;
      auto using Mux_errorReply_spec.
Qed.

End MuxProperties.

Lemma Mux_createTask_stores_witness :
  let k := execState (Mux.handleTasks Mux.exampleDecode (fun _ => true) 1700000000 7
                        {| Method := "POST"; Path := "/tasks"; Body := "New Task" |})
                     (Mux.freshConn Mux.NewTaskStore) in
  let task := {| ID := "1700000000"; Title := "New Task"; Description := "";
                 Completed := true; CreatedAt := 7 |} in
  Mux.tasks (Mux.store k) = <["1700000000" := task]> ∅ /\
  Mux.status k = 201 /\
  Mux.Header (Mux.w k) !! "Content-Type" = Some "application/json" /\
  Mux.Written (Mux.w k) = [Mux.Json (DataTask task)].
Proof.
  apply (Mux_createTask_stores Mux.exampleDecode (fun _ => true) 1700000000 7
           {| Method := "POST"; Path := "/tasks"; Body := "New Task" |}
           Mux.NewTaskStore
           {| ID := "chosen-by-client"; Title := "New Task"; Description := "";
              Completed := true; CreatedAt := zeroTime |});
    [reflexivity|reflexivity|discriminate].
Defined.

Lemma Mux_createTask_same_nano_witness :
  let k1 := execState (Mux.handleTasks Mux.exampleDecode (fun _ => true) 5 7
                         {| Method := "POST"; Path := "/tasks"; Body := "first" |})
                      (Mux.freshConn Mux.NewTaskStore) in
  let k2 := execState (Mux.handleTasks Mux.exampleDecode (fun _ => true) 5 8
                         {| Method := "POST"; Path := "/tasks"; Body := "second" |})
                      (Mux.freshConn (Mux.store k1)) in
  let task2 := {| ID := "5"; Title := "second"; Description := "";
                  Completed := true; CreatedAt := 8 |} in
  Mux.status k1 = 201 /\ Mux.status k2 = 201 /\
  Mux.tasks (Mux.store k2) = <["5" := task2]> ∅ /\
  evalState (Mux.Get "5") (Mux.store k2) = (task2, true) /\
  size (Mux.tasks (Mux.store k2)) = size (Mux.tasks (Mux.store k1)).
Proof.
  apply (Mux_createTask_same_nano Mux.exampleDecode (fun _ => true) 5 7 8
           {| Method := "POST"; Path := "/tasks"; Body := "first" |}
           {| Method := "POST"; Path := "/tasks"; Body := "second" |}
           Mux.NewTaskStore
           {| ID := "chosen-by-client"; Title := "first"; Description := "";
              Completed := true; CreatedAt := zeroTime |}
           {| ID := "chosen-by-client"; Title := "second"; Description := "";
              Completed := true; CreatedAt := zeroTime |});
    [reflexivity|reflexivity|reflexivity|discriminate|reflexivity|discriminate].
Defined.

Lemma Mux_error_replies_are_plain_text_witness :
  let k := execState (Mux.handleTasks Mux.exampleDecode (fun _ => true) 5 7
                        {| Method := "POST"; Path := "/tasks";
                           Body := "{invalid json}" |})
                     (Mux.freshConn Mux.NewTaskStore) in
  (400 <= Mux.status k -> Mux.isErrorReply k /\ Mux.store k = Mux.NewTaskStore) /\
  (Mux.status k < 400 ->
   Mux.Header (Mux.w k) !! "Content-Type" = Some "application/json").
Proof.
  apply (Mux_error_replies_are_plain_text Mux.exampleDecode (fun _ => true) 5 7
           {| Method := "POST"; Path := "/tasks"; Body := "{invalid json}" |}
           Mux.NewTaskStore).
  left. reflexivity.
Defined.

Lemma pretty_N_go_nonempty x : forall s, s <> "" -> pretty_N_go x s <> "".
Proof.
  induction (N.lt_wf_0 x) as [x _ IH]. intros s Hs.
  destruct (decide (x = 0%N)) as [->|Hx]; [by rewrite pretty_N_go_0|].
  rewrite pretty_N_go_step by lia. apply IH; [|done].
  apply N.div_lt; lia.
Qed.

Lemma pretty_Z_nonempty (n : Z) : pretty n <> "".
Proof.
  assert (Hpos : forall p : positive, pretty p <> "").
  { intros p. unfold pretty, pretty_positive, pretty, pretty_N.
    rewrite decide_False by done.
    rewrite pretty_N_go_step by lia. by apply pretty_N_go_nonempty. }
  destruct n as [|p|p]; unfold pretty, pretty_Z; [done|apply Hpos|done].
Qed.

Section MuxRoundTrip.

Variable jsonDecode : string -> option Task.
Variable jsonEncodes : Data -> bool.

(** X18. In the ServeMux variant a task created by POST is returned by
    a GET on /tasks/ followed by its id: the POST stores the task under
    the decimal nanoseconds, and the GET handled by [handleTaskByID]
    does not panic and answers 200 with that very task when it can be
    encoded, and 500 with an error text when it cannot; either way the
    store stays as the POST left it. *)
Theorem Mux_POST_then_GET nano now r r' s decoded :
  Method r = MethodPost ->
  jsonDecode (Body r) = Some decoded ->
  Title decoded <> "" ->
  Method r' = MethodGet ->
  Path r' = "/tasks/" +:+ pretty nano ->
  let k := execState (Mux.handleTasks jsonDecode jsonEncodes nano now r)
                     (Mux.freshConn s) in
  let task := {| ID := pretty nano; Title := Title decoded;
                 Description := Description decoded;
                 Completed := Completed decoded; CreatedAt := now |} in
  exists k',
    Mux.handleTaskByID jsonEncodes r' (Mux.freshConn (Mux.store k)) = Some k' /\
    Mux.store k' = Mux.store k /\
    Mux.status k' = (if jsonEncodes (DataTask task) then 200 else 500) /\
    Mux.Written (Mux.w k')
    = [if jsonEncodes (DataTask task) then Mux.Json (DataTask task)
       else Mux.Line (Mux.errorText "internal server error")].
Proof.
  intros Hm Hdec Htitle Hm' Hp' k task.
  assert (Hk : Mux.tasks (Mux.store k) !! pretty nano = Some task).
  { subst k. rewrite Mux_handleTasks_eq.
    rewrite Hm, bool_decide_eq_false_2 by done.
    rewrite bool_decide_eq_true_2 by done.
    rewrite Hdec, bool_decide_eq_false_2 by done.
    cbv zeta. cbn [Mux.store Mux.jsonReply Mux.tasks]. fold task.
    by rewrite lookup_insert_eq. }
  rewrite (Mux_handleTaskByID_eq _ _ _ (pretty nano))
    by (rewrite Hp'; apply sliceFrom_app).
  eexists. split; [reflexivity|].
  rewrite bool_decide_eq_false_2 by apply pretty_Z_nonempty.
  rewrite bool_decide_eq_true_2 by done. rewrite Hk.
  by destruct (jsonEncodes (DataTask task)).
Qed.

End MuxRoundTrip.

Lemma Mux_POST_then_GET_witness :
  let k := execState (Mux.handleTasks Mux.exampleDecode (fun _ => true) 5 7
                        {| Method := "POST"; Path := "/tasks"; Body := "first" |})
                     (Mux.freshConn Mux.NewTaskStore) in
  let task := {| ID := "5"; Title := "first"; Description := "";
                 Completed := true; CreatedAt := 7 |} in
  exists k',
    Mux.handleTaskByID (fun _ => true)
      {| Method := "GET"; Path := "/tasks/5"; Body := "" |}
      (Mux.freshConn (Mux.store k)) = Some k' /\
    Mux.store k' = Mux.store k /\
    Mux.status k' = 200 /\
    Mux.Written (Mux.w k') = [Mux.Json (DataTask task)].
Proof.
  apply (Mux_POST_then_GET Mux.exampleDecode (fun _ => true) 5 7
           {| Method := "POST"; Path := "/tasks"; Body := "first" |}
           {| Method := "GET"; Path := "/tasks/5"; Body := "" |}
           Mux.NewTaskStore
           {| ID := "chosen-by-client"; Title := "first"; Description := "";
              Completed := true; CreatedAt := zeroTime |});
    [reflexivity|reflexivity|discriminate|reflexivity|reflexivity].
Defined.
